(** * python-alp: a shallow embedding of the glue code and its properties

    The development follows the layout of the package:

    - [utils]          [alp/appcom/utils.py]      ([sliced], [switch_backend])
    - [dbbackend]      [alp/dbbackend/__init__.py] (the configuration bootstrap)
    - [cli]            [alp/cli.py]               ([parse_cont], [build_commands])
    - [keras_backend]  [alp/backend/keras_backend.py] ([train], [fit], [predict])

    Python functions become functions into [result]: a call either returns
    a value or raises.  Module-level state (the compiled-model cache, the
    document collection) is threaded explicitly, and an exception never
    rolls a state change back. *)

From stdpp Require Import base numbers option strings pretty list gmap.

#[local] Set Warnings "-register-all".

(** ** Exceptions and results *)

(** The exceptions that occur in the package.  The last two are the ones
    Python derives from [BaseException] only: an [except Exception]
    clause lets them through. *)
Inductive exn : Type :=
  | NameError (name : string)
  | UnboundLocalError (name : string)
  | KeyError (key : string)
  | IndexError
  | TypeError
  | AttributeError (attr : string)
  | AssertionError
  | ValueError
  | ImportError (module_name : string)
  | NotImplementedError (msg : string)
  | Exception (msg : string)
  | KeyboardInterrupt
  | SystemExit.

(** [isinstance(e, Exception)] *)
Definition is_Exception (e : exn) : bool :=
  match e with
  | KeyboardInterrupt | SystemExit => false
  | _ => true
  end.

Inductive result (A : Type) : Type :=
  | Ok (a : A)
  | Raise (e : exn).
Arguments Ok {A} a.
Arguments Raise {A} e.

#[export] Instance result_ret : MRet result := λ A a, Ok a.
#[export] Instance result_bind : MBind result := λ A B f m,
  match m with
  | Ok a => f a
  | Raise e => Raise e
  end.

Definition returns {A} (r : result A) : Prop := ∃ a, r = Ok a.

(** ** JSON documents, as [json.load] builds them *)

Inductive json : Type :=
  | JNull
  | JBool (b : bool)
  | JNum (n : Z)
  | JFloat (digits : string)
  | JStr (s : string)
  | JArr (items : list json)
  | JObj (members : gmap string json).

(** [d.get(key, default)]; only a dict has the method. *)
Definition dict_get (d : json) (key : string) (dflt : json) : result json :=
  match d with
  | JObj m => Ok (default dflt (m !! key))
  | _ => Raise (AttributeError "get")
  end.

(** [x == s] for a string literal [s]. *)
Definition eq_str (x : json) (s : string) : bool :=
  match x with
  | JStr s' => bool_decide (s' = s)
  | _ => false
  end.

(** [dict(pairs)], and a dict comprehension over the pairs: a later pair
    replaces an earlier one that has the same key. *)
Definition dict_of {V} (pairs : list (string * V)) : gmap string V :=
  foldl (λ d '(k, v), <[k := v]> d) ∅ pairs.

(** ** alp/appcom/utils.py *)

Module utils.

(** The first key a dict yields is the first pair of the association
    list; [data[first]] reads the first pair stored under that key. *)
Definition keys {V} (data : list (string * V)) : list string := data.*1.

Fixpoint subscript {V} (data : list (string * V)) (k : string) : result V :=
  match data with
  | [] => Raise (KeyError k)
  | (k', v) :: data' => if decide (k' = k) then Ok v else subscript data' k
  end.

Definition len {A} (a : list A) : Z := Z.of_nat (length a).

Definition sliced {A} (data : list (string * list A))
    (nb_train nb_test offset : Z) : result (Z * Z * Z) :=
  first ← from_option Ok (Raise (UnboundLocalError "first")) (head (keys data));
  arr ← subscript data first;
  if bool_decide (len arr > nb_train + nb_test + offset)%Z then
    let beg := (offset - len arr)%Z in
    let endt := (beg + nb_train)%Z in
    let endv := (endt + nb_test)%Z in
    Ok (beg, endt, endv)
  else Raise AssertionError.

(** A backend is the library module [get_backend] imports; the import
    itself is Python's and may fail. *)
Section switch.
Context {pymodule : Type} (import_module : string → result pymodule).

(** [keras_backend.get_backend] *)
Definition get_backend (_ : unit) : result pymodule := import_module "keras".

(** Both branches bind the local name [get_backend] to the function of
    the Keras backend; on any other name it stays unbound. *)
Definition switch_backend (backend_name : string) : result pymodule :=
  let local_get_backend : option (unit → result pymodule) :=
    if decide (backend_name = "keras") then Some get_backend
    else if decide (backend_name = "sklearn") then Some get_backend
    else None in
  match local_get_backend with
  | Some f => f ()
  | None => Raise (UnboundLocalError "get_backend")
  end.
End switch.

(** *** list_to_dict *)

Section named.
(** The objects of the list and their [__name__]. *)
Context {A : Type} (__name__ : A → string).

Definition list_to_dict (list_to_transform : list A) : gmap string A :=
  dict_of ((λ el, (__name__ el, el)) <$> list_to_transform).

(** *** imports *)

(** The argument of the decorator: nothing, a list or a dict. *)
Inductive packages : Type :=
  | NoPackages
  | PackageList (l : list A)
  | PackageDict (d : gmap string A).

(** The loop of [inner] over [packs.items()], on [wrapped.__globals__]. *)
Definition bind_missing (packs globals : gmap string A) : gmap string A :=
  foldl (λ globals '(name, pack),
           if decide (is_Some (globals !! name)) then globals
           else <[name := pack]> globals)
        globals (map_to_list packs).

(** A function object: [__globals__] is the dict of the module the [def]
    was run in, named here by the module, and shared by the functions of
    that module.  A call runs on the arguments and on the globals of the
    modules, any of which it may change. *)
Record pyfunction (Args R : Type) : Type := {
  __globals__ : string;
  __call__ : Args → gmap string (gmap string A)
             → result R * gmap string (gmap string A);
}.
Arguments __globals__ {Args R} _.
Arguments __call__ {Args R} _ _ _.

(** [wrapped.__globals__]; a module that has no entry has no global
    yet. *)
Definition globals_of {Args R} (wrapped : pyfunction Args R)
    (modules : gmap string (gmap string A)) : gmap string A :=
  default ∅ (modules !! __globals__ wrapped).

(** [imports(packages)(wrapped)].  The function returned is [inner], a
    [def] of this module: [functools.wraps] copies the name, the module
    name, the docstring and the attribute dict of [wrapped] to it, and
    leaves its [__globals__], those of [alp.appcom.utils]. *)
Definition imports (pkgs : packages) {Args R : Type}
    (wrapped : pyfunction Args R) : pyfunction Args R :=
  let pkgs := match pkgs with
              | NoPackages => PackageDict ∅
              | _ => pkgs
              end in
  {| __globals__ := "alp.appcom.utils";
     __call__ := λ args modules,
       let packs := match pkgs with
                    | PackageList l => list_to_dict l
                    | PackageDict d => d
                    | NoPackages => ∅
                    end in
       let modules :=
         <[__globals__ wrapped := bind_missing packs (globals_of wrapped modules)]>
           modules in
       __call__ wrapped args modules |}.
End named.

Arguments __globals__ {A Args R} _.
Arguments __call__ {A Args R} _ _ _.
Arguments Build_pyfunction {A Args R} _ _.

(** *** norm_iterator and max_v_len *)

(** What the two functions are given: a list, a dict, or something else.
    A dict is the list of its items, in the order in which it yields
    them. *)
Inductive iterable (A : Type) : Type :=
  | AList (items : list A)
  | ADict (items : list (string * A))
  | AOther.
Arguments AList {A} items.
Arguments ADict {A} items.
Arguments AOther {A}.

(** [None] is what the function returns when no branch is taken. *)
Definition norm_iterator {A} (it : iterable A) (suf : string)
    : option (list (string * A)) :=
  match it with
  | AList l =>
      let names := imap (λ i _, suf +:+ "_list_" +:+ pretty i) l in
      Some (zip names l)
  | ADict items => Some items
  | AOther => None
  end.

(** [for k, v in x] *)
Definition pairs_of {A} (x : option (list (string * A))) : result (list (string * A)) :=
  from_option Ok (Raise TypeError) x.

Definition max_v_len {B} (iterable_to_check : iterable (list B)) : result nat :=
  pairs ← pairs_of (norm_iterator iterable_to_check "suf");
  Ok (foldl (λ max_v '(k, v),
               if bool_decide (max_v < length v) then length v else max_v)
            0 pairs).

(** *** izip_dict *)

(** [zip] of one iterable yields the 1-tuples of its elements. *)
Definition zip1 {A} (l : list A) : list (list A) := (λ x, [x]) <$> l.

(** The dicts the generator yields, in order. *)
Definition izip_dict {V} (iterables : list (gmap string V)) : list (gmap string V) :=
  let iterables_func := map_to_list <$> iterables in
  (λ els : list (list (string * V)),
     foldl (λ results el,
              foldl (λ results (i : string * V), <[i.1 := i.2]> results) results el)
           (∅ : gmap string V) els)
  <$> zip1 iterables_func.

(** *** to_fuel_h5 *)

(** What is done to the h5py file, in order. *)
Inductive h5_op : Type :=
  | H5File (path : string)
  | CreateDataset (name : string)
  | Assign (name : string)
  | SetSplit
  | Flush
  | Close.

(** [split_dict] *)
Record split_dict : Type := {
  train : gmap string (Z * Z);
  test : gmap string (Z * Z);
}.


Section fuel.
(** Arrays are the lists of their rows.  The calls into os, h5py and
    fuel may raise; whether [f.flush()] and [f.close()] do may depend on
    what was done to the file before.  A call is logged whether it
    returns or raises. *)
Context {B split_array : Type}.
Context (path_join : string → string → string)
        (h5py_File : string → result ())
        (create_dataset : string → list B → result ())
        (assign : string → list B → result ())
        (create_split_array : split_dict → result split_array)
        (flush close : list h5_op → result ()).

(** One of the two loops of the [try], on the file operations so far. *)
Fixpoint store (prefix : string) (start stop : Z) (max_v : nat)
    (pairs : list (string * list B)) (split : split_dict) (ops : list h5_op)
    : result split_dict * list h5_op :=
  match pairs with
  | [] => (Ok split, ops)
  | (k, v) :: pairs =>
      let ops := ops ++ [CreateDataset (prefix +:+ k)] in
      match create_dataset (prefix +:+ k) v with
      | Raise e => (Raise e, ops)
      | Ok _ =>
          let ops := ops ++ [Assign (prefix +:+ k)] in
          match assign (prefix +:+ k) v with
          | Raise e => (Raise e, ops)
          | Ok _ =>
              store prefix start stop max_v pairs
                {| train := <[prefix +:+ k := (start, stop)]> (train split);
                   test := <[prefix +:+ k := (stop, Z.of_nat max_v)]> (test split) |}
                ops
          end
      end
  end.



End fuel.

End utils.

(** ** alp/dbbackend/__init__.py *)

Module dbbackend.

(** The module-level names the bootstrap assigns. *)
Record settings : Type := {
  _db_engine : json;
  _host_adress : json;
  _host_port : json;
  _db_name : json;
  _models_collection : json;
  _generators_collection : json;
}.

(** Lines 17-25: the values before the file is looked at. *)
Definition initial (test_mode : bool) : settings := {|
  _db_engine := JStr "mongodb";
  _host_adress := if test_mode then JStr "127.0.0.1" else JStr "mongo_m";
  _host_port := JNum 27017;
  _db_name := JStr "modelization";
  _models_collection := JStr "models";
  _generators_collection := JStr "generators";
|}.

(** [x in {'mongodb'}]: membership in a set hashes [x] first. *)
Definition in_engines (x : json) : result bool :=
  match x with
  | JArr _ | JObj _ => Raise TypeError
  | _ => Ok (eq_str x "mongodb")
  end.

(** A list or a dict has no hash. *)
Definition unhashable (x : json) : bool :=
  match x with
  | JArr _ | JObj _ => true
  | _ => false
  end.

(** Lines 31-38, [_config] being what [json.load] returned. *)
Definition load (_config : json) : result settings :=
  db_engine ← dict_get _config "db_engine" (JStr "mongodb");
  known ← in_engines db_engine;
  if negb known then Raise AssertionError else
  host_adress ← dict_get _config "host_adress" (JStr "mongo_m");
  host_port ← dict_get _config "host_port" (JNum 27017);
  db_name ← dict_get _config "db_name" (JStr "modelization");
  models_collection ← dict_get _config "_models_collection" (JStr "models");
  generators_collection ← dict_get _config "_generators_collection" (JStr "models");
  Ok {| _db_engine := db_engine;
        _host_adress := host_adress;
        _host_port := host_port;
        _db_name := db_name;
        _models_collection := models_collection;
        _generators_collection := generators_collection |}.

(** Lines 41-46: the dict that is dumped to the file. *)
Definition saved (s : settings) : json :=
  JObj (<["db_engine" := _db_engine s]>
       (<["host_adress" := _host_adress s]>
       (<["host_port" := _host_port s]>
       (<["db_name" := _db_name s]>
       (<["models_collection" := _models_collection s]>
       (<["generators_collection" := _generators_collection s]> ∅)))))).

(** What the module body asks of its environment once the names are
    bound: to write the file (lines 48-49) and to import the Mongo
    backend (line 53).  Either may raise. *)
Record environment : Type := {
  write_config : json → result ();
  import_mongo_backend : result ();
}.

(** The requests made, in order, whether they returned or raised. *)
Inductive action : Type :=
  | Write (_config : json)
  | Import (module_name : string).

(** Lines 52-55; the message of the exception goes on with
    [str(_db_engine)]. *)
Definition import_backend (env : environment) (s : settings)
    : result unit * list action :=
  if eq_str (_db_engine s) "mongodb"
  then (import_mongo_backend env, [Import "mongo_backend"])
  else (Raise (Exception "Unknown backend"), []).

(** The whole module body.  [file] is the JSON document that [json.load]
    reads at [_config_path], if the file exists. *)
Definition module_body (env : environment) (test_mode : bool)
    (file : option json) : result settings * list action :=
  let loaded :=
    match file with
    | Some _config => load _config
    | None => Ok (initial test_mode)
    end in
  match loaded with
  | Raise e => (Raise e, [])
  | Ok s =>
      let _config := saved s in
      match write_config env _config with
      | Raise e => (Raise e, [Write _config])
      | Ok _ =>
          let '(imported, actions) := import_backend env s in
          (imported ;; Ok s, Write _config :: actions)
      end
  end.

(** The file after requests that all returned. *)
Definition file_after (file : option json) (actions : list action) : option json :=
  foldl (λ file a,
           match a with
           | Write _config => Some _config
           | Import _ => file
           end)
        file actions.

(** An environment in which the file can be written and the backend
    imported. *)
Definition available : environment := {|
  write_config := λ _, Ok ();
  import_mongo_backend := Ok ();
|}.

(** The module body in such an environment; the second component is the
    file after the import. *)
Definition bootstrap (test_mode : bool) (file : option json)
    : result settings * option json :=
  let '(imported, actions) := module_body available test_mode file in
  (imported, file_after file actions).

(** What the claim of a round trip asks of one key: the value the first
    import wrote under [key] is the value the next import binds to the
    corresponding name. *)
Definition written (file : option json) (key : string) : option json :=
  match file with
  | Some (JObj m) => m !! key
  | _ => None
  end.

(** What [load] binds when no check stops it: every name gets the value
    stored under the key it is read from, or that key's default. *)
Definition bound (m : gmap string json) : settings := {|
  _db_engine := default (JStr "mongodb") (m !! "db_engine");
  _host_adress := default (JStr "mongo_m") (m !! "host_adress");
  _host_port := default (JNum 27017) (m !! "host_port");
  _db_name := default (JStr "modelization") (m !! "db_name");
  _models_collection := default (JStr "models") (m !! "_models_collection");
  _generators_collection := default (JStr "models") (m !! "_generators_collection");
|}.

End dbbackend.

(** ** alp/cli.py *)

(** [xs[i]] on a list, negative indexes counting from the end. *)
Definition list_index {A} (xs : list A) (i : Z) : result A :=
  let n := Z.of_nat (length xs) in
  let j := if bool_decide (i < 0)%Z then (n + i)%Z else i in
  if bool_decide (0 ≤ j < n)%Z
  then from_option Ok (Raise IndexError) (xs !! Z.to_nat j)
  else Raise IndexError.

(** [for x in l: ...] with a body that may raise. *)
Fixpoint mapM {A B} (f : A → result B) (l : list A) : result (list B) :=
  match l with
  | [] => Ok []
  | x :: l' => y ← f x; ys ← mapM f l'; Ok (y :: ys)
  end.

Module cli.

(** What a name of the module can be bound to: data, or one of the
    imported modules and defined functions. *)
Inductive pyobj : Type :=
  | Data (j : json)
  | Module_ (name : string)
  | Function_ (name : string).

Section with_python.
(** [str(x)], as [str.format] applies it, and the string imported
    from [alp.appcom]. *)
Context (str_ : json → string) (_alp_dir : string).

(** The names bound at module level in cli.py: its imports and its
    [def]s.  No builtin is called [containers], [models_gen_db],
    [base_columes], [v] or [p] either. *)
Definition module_globals : gmap string pyobj :=
  list_to_map [
    ("sys", Module_ "sys"); ("click", Module_ "click"); ("os", Module_ "os");
    ("json", Module_ "json"); ("subprocess", Module_ "subprocess");
    ("_alp_dir", Data (JStr _alp_dir));
    ("parse_cont", Function_ "parse_cont");
    ("build_commands", Function_ "build_commands");
    ("action_config", Function_ "action_config");
    ("main", Function_ "main"); ("service", Function_ "service")
  ].

(** Reading a name that no assignment of the function binds. *)
Definition load_global (name : string) : result pyobj :=
  from_option Ok (Raise (NameError name)) (module_globals !! name).

(** [d[k]] *)
Definition subscript (d k : json) : result json :=
  match d, k with
  | JObj m, JStr key => from_option Ok (Raise (KeyError key)) (m !! key)
  | JObj _, (JArr _ | JObj _) => Raise TypeError
  | JObj _, _ => Raise (KeyError (str_ k))
  | JArr xs, JNum i => list_index xs i
  | JStr s, JNum i =>
      c ← list_index (String.list_ascii_of_string s) i;
      Ok (JStr (String c EmptyString))
  | _, _ => Raise TypeError
  end.

Definition obj_subscript (o : pyobj) (k : json) : result json :=
  match o with
  | Data d => subscript d k
  | _ => Raise TypeError
  end.

Fixpoint is_infix (needle hay : string) : bool :=
  String.prefix needle hay ||
  match hay with
  | EmptyString => false
  | String _ hay' => is_infix needle hay'
  end.

(** [key in x] for a string [key] *)
Definition contains (x : json) (key : string) : result bool :=
  match x with
  | JObj m => Ok (bool_decide (is_Some (m !! key)))
  | JArr xs => Ok (existsb (λ y, eq_str y key) xs)
  | JStr s => Ok (is_infix key s)
  | _ => Raise TypeError
  end.

(** [for x in v] *)
Definition iterate (v : json) : result (list json) :=
  match v with
  | JArr xs => Ok xs
  | JObj m => Ok (JStr <$> (map_to_list m).*1)
  | JStr s => Ok ((λ c, JStr (String c EmptyString)) <$> String.list_ascii_of_string s)
  | _ => Raise TypeError
  end.

Definition is_None (o : pyobj) : bool :=
  match o with
  | Data JNull => true
  | _ => false
  end.

Definition parse_cont (container : json) (action : string)
    (volumes links : pyobj) : result (list pyobj) :=
  let container_command : list pyobj := [] in
  containers ← load_global "containers";
  entry ← obj_subscript containers container;
  gpu ← contains entry "NV_GPU";
  container_command ←
    (if (gpu : bool) then
       containers ← load_global "containers";
       entry ← obj_subscript containers container;
       nv_gpu ← subscript entry (JStr "NV_GPU");
       Ok (container_command ++ [Data (JStr ("NV_GPU=" +:+ str_ nv_gpu));
                                 Data (JStr "nvidia-docker")])
     else Ok (container_command ++ [Data (JStr "docker")]));
  let container_command := container_command ++ [Data (JStr action)] in
  if decide (action = "run") then
    mode ← subscript container (JStr "mode");
    let container_command := container_command ++ [Data mode] in
    has_volumes ← contains container "volumes";
    container_command ←
      (if (has_volumes : bool) then
         v ← load_global "v"; Ok (container_command ++ [Data (JStr "-v"); v])
       else Ok container_command);
    let container_command :=
      if is_None volumes then container_command
      else container_command ++ [volumes] in
    let container_command :=
      if is_None links then container_command
      else container_command ++ [links] in
    has_ports ← contains container "ports";
    container_command ←
      (if (has_ports : bool) then
         p ← load_global "p"; Ok (container_command ++ [Data (JStr "-p"); p])
       else Ok container_command);
    has_options ← contains container "options";
    container_command ←
      (if (has_options : bool) then
         options ← subscript container (JStr "options");
         options ← iterate options;
         Ok (container_command ++ (Data <$> (options : list json)))
       else Ok container_command);
    name ← subscript container (JStr "name");
    let container_command := container_command ++ [Data (JStr "--name"); Data name] in
    containers ← load_global "containers";
    entry ← obj_subscript containers container;
    container_name ← subscript entry (JStr "container_name");
    Ok (container_command ++ [Data container_name])
  else
    name ← subscript container (JStr "name");
    Ok (container_command ++ [Data name]).

Definition build_commands (config : json) (action : string)
    : result (list (list pyobj)) :=
  broker ← subscript config (JStr "broker");
  results_db ← subscript config (JStr "result_db");
  model_gen_db ← subscript config (JStr "model_gen_db");
  workers ← subscript config (JStr "workers");
  controlers ← subscript config (JStr "controlers");
  volumes ← subscript config (JStr "base_volumes");
  volumes ← iterate volumes;
  let base_volumes := (λ volume, JStr ("-v " +:+ str_ volume)) <$> volumes in
  let links : list json := [] in
  models_gen_db ← load_global "models_gen_db";
  name ← obj_subscript models_gen_db (JStr "name");
  let links := links ++ [JStr ("--link=" +:+ str_ name)] in
  name ← subscript broker (JStr "name");
  let links := links ++ [JStr ("--link=" +:+ str_ name)] in
  broker_command ← parse_cont broker action (Data JNull) (Data JNull);
  r_db_command ← parse_cont results_db action (Data JNull) (Data JNull);
  m_g_db_command ← parse_cont model_gen_db action (Data JNull) (Data JNull);
  workers ← iterate workers;
  workers_commands ←
    mapM (λ worker, parse_cont worker action (Data (JArr base_volumes))
                      (Data (JArr links))) workers;
  controlers ← iterate controlers;
  controlers_commands ←
    mapM (λ controler,
            base_columes ← load_global "base_columes";
            parse_cont controler action base_columes (Data (JArr links)))
         controlers;
  let all_commands := [broker_command] ++ [r_db_command] ++ [m_g_db_command] in
  let all_commands := all_commands ++ workers_commands in
  let all_commands := all_commands ++ controlers_commands in
  Ok all_commands.

(** The configuration of tests/test_alp.py ([init_test_config]). *)
Definition test_config : json :=
  JObj (list_to_map [
    ("broker", JObj (list_to_map [
       ("volumes", JArr [JStr "/opt/data/rabbitmq/dev/log:/dev/log";
                         JStr "/opt/data/rabbitmq:/var/lib/rabbitmq"]);
       ("ports", JArr [JStr "8081:15672"; JStr "5673:5672"]);
       ("name", JStr "rabbitmq_sched_test");
       ("container_name", JStr "rabbitmq:3-management");
       ("mode", JStr "-d")]));
    ("result_db", JObj (list_to_map [
       ("volumes", JArr [JStr "/opt/data/mongo_data/results:/data/db"]);
       ("name", JStr "mongo_results_test");
       ("container_name", JStr "mongo");
       ("mode", JStr "-d")]));
    ("model_gen_db", JObj (list_to_map [
       ("volumes", JArr [JStr "/opt/data/mongo_data/models:/data/db"]);
       ("name", JStr "mongo_models_test");
       ("container_name", JStr "mongo");
       ("mode", JStr "-d")]));
    ("workers", JArr []);
    ("controlers", JArr [])
  ]).

(** The entries [build_commands] reads before the first unresolved
    name, in the order of the reads. *)
Definition entries : list string :=
  ["broker"; "result_db"; "model_gen_db"; "workers"; "controlers"; "base_volumes"].

(** The reads of the configuration that come before the first
    unresolved name. *)
Definition reads_ok (config : json) : Prop :=
  returns (subscript config (JStr "broker"))
  ∧ returns (subscript config (JStr "result_db"))
  ∧ returns (subscript config (JStr "model_gen_db"))
  ∧ returns (subscript config (JStr "workers"))
  ∧ returns (subscript config (JStr "controlers"))
  ∧ returns (subscript config (JStr "base_volumes") ≫= iterate).

End with_python.

(** The test configuration with the entry it lacks. *)
Definition full_config : json :=
  JObj (<["base_volumes" := JArr [JStr "/opt/data:/data"]]>
          (match test_config with JObj m => m | _ => ∅ end)).

End cli.

(** ** alp/backend/keras_backend.py *)

(** A loop that carries its variables and may raise in the body. *)
Fixpoint foldM {A B} (f : B → A → result B) (b : B) (l : list A) : result B :=
  match l with
  | [] => Ok b
  | x :: l' => b' ← f b x; foldM f b' l'
  end.

Module keras_backend.

(** A string object as the interpreter holds it.  [a is "lit"] compares
    identities: it holds when [a] is the interned object with that text
    (CPython interns the identifier-like constants of a code object), and
    never for another text. *)
Record pystr : Type := { text : string; interned : bool }.

Definition is_literal (a : pystr) (lit : string) : bool :=
  interned a && bool_decide (text a = lit).

(** The function [deserialize] rebuilds from a code object. *)
Record pyfunc : Type := { func_name : string; func_code : string }.

(** [model_dict['config']]: the class name and the layer configuration
    ([config_m] in [to_dict_w_opt]). *)
Record layer_config : Type := {
  class_name : option string;
  config_m : json;
}.

(** The serialized model [to_dict_w_opt] builds: 'config' always, the
    other keys when the model has the attribute.  [others] holds what is
    read with [.get] only. *)
Record arch : Type := {
  config : layer_config;
  optimizer : option (gmap string json);
  loss : option (gmap string string);
  metrics : option json;
  others : gmap string json;
}.

(** The dict the tasks receive; [fit] reads 'model_arch' only. *)
Record model_dict : Type := {
  mod_id : string;
  model_arch : arch;
  params_dump : string;
}.

Inductive loss_fn : Type :=
  | LossName (name : string)
  | LossFn (f : pyfunc).

(** [str.format] of a value that may be [None]. *)
Definition format_name (name : option string) : string := default "None" name.

(** *** to_dict_w_opt *)

(** What a loss can be: a string, a function, another callable (it has no
    [__name__]), or one more object. *)
Inductive pyobject : Type :=
  | Str (s : string)
  | Function (__name__ : string)
  | Callable
  | Object.

Definition get_function_name (o : pyobject) : result string :=
  match o with
  | Str s => Ok s
  | Function name => Ok name
  | _ => Raise (AttributeError "__name__")
  end.

(** [model.loss] *)
Inductive loss_attr : Type :=
  | LossDict (d : gmap string pyobject)
  | LossList (l : list pyobject)
  | LossObject (o : pyobject).

(** What [to_dict_w_opt] reads of a model: its class, [get_config()],
    [optimizer.get_config()] and [loss] when it has the attribute, and
    the names of [output_layers].  The calls may raise. *)
Record keras_model : Type := {
  m_class : string;
  m_get_config : result json;
  m_optimizer : option (result (gmap string json));
  m_loss : option loss_attr;
  m_output_layers : result (list string);
}.

Definition to_dict_w_opt (model : keras_model) (metrics : option json)
    : result arch :=
  config_m ← m_get_config model;
  let config := {| class_name := Some (m_class model); config_m := config_m |} in
  optimizer ←
    match m_optimizer model with
    | Some get_config => o ← get_config; Ok (Some o)
    | None => Ok None
    end;
  loss ←
    match m_loss model with
    | Some model_loss =>
        name_out ← m_output_layers model;
        match model_loss with
        | LossDict d =>
            pairs ← mapM (λ '(k, v), name ← get_function_name v; Ok (k, name))
                         (map_to_list d);
            Ok (Some (dict_of pairs))
        | LossList l =>
            names ← mapM get_function_name l;
            Ok (Some (dict_of (zip name_out names)))
        | LossObject ((Function _ | Callable) as o) =>
            name ← get_function_name o;
            Ok (Some (dict_of (zip name_out [name])))
        | LossObject (Str _ as o) =>
            name ← get_function_name o;
            Ok (Some (dict_of (zip name_out [name])))
        | LossObject Object => Ok None
        end
    | None => Ok None
    end;
  Ok {| config := config; optimizer := optimizer; loss := loss;
        metrics := metrics; others := ∅ |}.

Section with_keras.
(** Metric values (floats), arrays, and the objects of the library. *)
Context {scalar tensor kmodel optimizer_obj predfun : Type}.

(** Values of keyword arguments and of document fields. *)
Inductive value : Type :=
  | VNone
  | VInt (n : Z)
  | VStr (s : string)
  | VNum (x : scalar)
  | VNums (xs : list scalar)
  | VDate (t : Z)
  | VObjects (objs : gmap string string)
  | VArch (a : arch).

Definition is_None (v : value) : bool :=
  match v with
  | VNone => true
  | _ => false
  end.

(** [kwargs.get(key)] *)
Definition kwargs_get (kwargs : gmap string value) (key : string) : value :=
  default VNone (kwargs !! key).

(** Data handed to a model: an array, a list, or a dict of names. *)
Inductive pdata : Type :=
  | PArr (a : tensor)
  | PList (items : list pdata)
  | PDict (named : gmap string pdata).

Definition batch : Type := gmap string pdata.

(** The object [model.fit] returns. *)
Record History : Type := {
  history : gmap string (list scalar);
  epoch : list Z;
}.

Inductive carg : Type :=
  | CLoss (l : gmap string loss_fn)
  | COptimizer (o : optimizer_obj)
  | CJson (j : option json).

Inductive fit_input : Type :=
  | FitData (data validation_data : batch)
  | FitXY (x y : pdata) (validation_data : pdata * pdata).

(** The calls into Keras, dill and numpy.  Each may raise; a call that
    changes the model returns the model after the call. *)
Record library : Type := {
  dill_loads : string → result string;
  layer_from_config : layer_config → gmap string pyfunc → result kmodel;
  optimizers_get : json → gmap string json → result optimizer_obj;
  compile : kmodel → list (string * carg) → result kmodel;
  metrics_names : kmodel → result (list string);
  class_of : kmodel → pystr;
  input_names : kmodel → result (list string);
  model_fit : kmodel → fit_input → list value → gmap string value
              → result (History * kmodel);
  save_weights : kmodel → string → result ();
  load_weights : kmodel → string → result kmodel;
  K_function : kmodel → result predfun;
  call : predfun → list pdata → result (list tensor);
  np_min : list scalar → result scalar;
}.

Context (K : library).

(** [deserialize(k, custom_object_str)] *)
Definition deserialize (k custom_object_str : string) : result pyfunc :=
  code ← dill_loads K custom_object_str;
  Ok {| func_name := k; func_code := code |}.

Definition deserialize_all (custom_objects : gmap string string)
    : result (gmap string pyfunc) :=
  objs ← mapM (λ '(k, v), f ← deserialize k v; Ok (k, f)) (map_to_list custom_objects);
  Ok (list_to_map objs).

(** A loss whose name is a key of [custom_objects] is replaced by the
    object; the replaced entry compares equal to no later key. *)
Definition replace_losses (custom_objects : gmap string pyfunc)
    (loss : gmap string string) : gmap string loss_fn :=
  (λ name, match custom_objects !! name with
           | Some f => LossFn f
           | None => LossName name
           end) <$> loss.

(** Lines 111-115, up to the calls of [deserialize]: [None] stands for
    an empty dict, and the comprehension reads [custom_objects[k]] for
    every [k] the object yields.  A dict gives its items, and an empty
    string or list gives none.  Anything else raises [TypeError]: a
    number or a date is not iterable, a string is not indexed by its
    characters nor a list by the floats it holds, and [dill.loads]
    takes neither the dicts nor the list that a serialized model
    holds. *)
Definition pickled (custom_objects : value) : result (gmap string string) :=
  match custom_objects with
  | VNone => Ok ∅
  | VObjects objs => Ok objs
  | VStr "" | VNums [] => Ok ∅
  | _ => Raise TypeError
  end.

Definition model_from_dict_w_opt (model_dict : arch) (custom_objects : value)
    : result kmodel :=
  custom_objects ← pickled custom_objects;
  custom_objects ← deserialize_all custom_objects;
  model ← layer_from_config K (config model_dict) custom_objects;
  match optimizer model_dict with
  | Some optimizer_params =>
      let metrics := metrics model_dict in
      let model_name := class_name (config model_dict) in
      loss ← from_option Ok (Raise TypeError) (loss model_dict);
      let loss := replace_losses custom_objects loss in
      optimizer_name ←
        from_option Ok (Raise (KeyError "name")) (optimizer_params !! "name");
      let optimizer_params := delete "name" optimizer_params in
      optimizer ← optimizers_get K optimizer_name optimizer_params;
      if decide (model_name = Some "Sequential") then
        compile K model
          [("loss", CLoss loss); ("optimizer", COptimizer optimizer);
           ("sample_weight_mode", CJson (others model_dict !! "sample_weight_mode"));
           ("metrics", CJson metrics)]
      else if decide (model_name = Some "Graph") then
        compile K model
          [("loss", CLoss loss); ("optimizer", COptimizer optimizer);
           ("sample_weight_modes", CJson (others model_dict !! "sample_weight_modes"));
           ("loss_weights", CJson (others model_dict !! "loss_weights"))]
      else if decide (model_name = Some "Model") then
        compile K model
          [("loss", CLoss loss); ("optimizer", COptimizer optimizer);
           ("sample_weight_mode", CJson (others model_dict !! "sample_weight_mode"));
           ("loss_weights", CJson (others model_dict !! "loss_weights"));
           ("metrics", CJson metrics)]
      else Ok model
  | None => Ok model
  end.

(** [build_predict_func] *)
Definition build_predict_func (mod_ : kmodel) : result predfun := K_function K mod_.

(** *** train *)

(** [results] of [train], with the three entries [fit] adds. *)
Record results : Type := {
  r_metrics : gmap string value;
  model_id : option string;
  data_id : option string;
  r_params_dump : option string;
}.

(** [metrics[key] += rhs]: the target is read first, then the right-hand
    side is evaluated, then the list is extended in place. *)
Definition extend (metrics : gmap string value) (key : string)
    (rhs : result (list scalar)) : result (gmap string value) :=
  match metrics !! key with
  | None => Raise (KeyError key)
  | Some target =>
      xs ← rhs;
      match target with
      | VNums l => Ok (<[key := VNums (l ++ xs)]> metrics)
      | _ => Raise TypeError
      end
  end.

Definition history_get (h : History) (metric : string) : result (list scalar) :=
  from_option Ok (Raise (KeyError metric)) (history h !! metric).

(** The inner loop over [metrics_names]: both entries take
    [h.history[metric]]. *)
Definition record_history (names : list string) (h : History)
    (metrics : gmap string value) : result (gmap string value) :=
  foldM (λ metrics metric,
           metrics ← extend metrics metric (history_get h metric);
           extend metrics ("val_" +:+ metric) (history_get h metric))
        metrics names.

(** The loop variables: the metrics, the model being fitted, and [h],
    unbound until the first pass. *)
Definition loop_state : Type := gmap string value * kmodel * option History.

Definition fit_batches (names : list string)
    (input : batch → batch → result fit_input)
    (args : list value) (kwargs : gmap string value)
    (batches : list (batch * batch)) (st : loop_state) : result loop_state :=
  foldM (λ '(metrics, model, _) '(d, dv),
           inp ← input d dv;
           '(h, model) ← model_fit K model inp args kwargs;
           metrics ← record_history names h metrics;
           Ok (metrics, model, Some h))
        st batches.

Definition batch_get (d : batch) (key : string) : result pdata :=
  from_option Ok (Raise (KeyError key)) (d !! key).

Definition graph_input (d dv : batch) : result fit_input := Ok (FitData d dv).

Definition xy_input (d dv : batch) : result fit_input :=
  X ← batch_get d "X"; y ← batch_get d "y";
  X_val ← batch_get dv "X"; y_val ← batch_get dv "y";
  Ok (FitXY X y (X_val, y_val)).

(** The lines after either loop: [h.epoch[-1] * len(data)]. *)
Definition finish (data : list batch) (st : loop_state) : result (results * kmodel) :=
  let '(metrics, model, h) := st in
  h ← from_option Ok (Raise (UnboundLocalError "h")) h;
  last ← list_index (epoch h) (-1);
  let metrics := <["iter" := VInt (last * Z.of_nat (length data))]> metrics in
  Ok ({| r_metrics := metrics; model_id := None; data_id := None;
         r_params_dump := None |}, model).

Definition train (model : arch) (data data_val : list batch)
    (args : list value) (kwargs : gmap string value) : result (results * kmodel) :=
  let metrics : gmap string value := ∅ in
  let '(custom_objects, kwargs) :=
    match kwargs !! "custom_objects" with
    | Some objs => (objs, delete "custom_objects" kwargs)
    | None => (VNone, kwargs)
    end in
  model ← model_from_dict_w_opt model custom_objects;
  names ← metrics_names K model;
  let metrics :=
    foldl (λ metrics metric,
             <["val_" +:+ metric := VNums []]> (<[metric := VNums []]> metrics))
          metrics names in
  let mod_name := class_of K model in
  if is_literal mod_name "Graph" then
    st ← fit_batches names graph_input args kwargs (zip data data_val)
           (metrics, model, None);
    finish data st
  else if is_literal mod_name "Sequential" || is_literal mod_name "Model" then
    st ← fit_batches names xy_input args kwargs (zip data data_val)
           (metrics, model, None);
    finish data st
  else
    Raise (NotImplementedError
             ("This type of modelis not supported: " +:+ text mod_name)).

(** *** fit *)

Abbreviation doc := (gmap string value).

Inductive db_op : Type :=
  | Insert (full_json : doc)
  | Update (id : nat) (sets : doc).

(** Modelled from the spec: [alp.dbbackend.mongo_backend], whose [insert]
    and [update] the task calls, is not among the sources.  The spec
    speaks of documents in a collection and of a record marked with an
    error flag: the collection is the list of its documents, a document's
    identifier is its position, [insert] appends and returns the
    identifier, and [update] with [{'$set': sets}] overwrites the fields
    of [sets] in the document found and leaves the others.  [oplog]
    keeps the calls made. *)
Record database : Type := {
  docs : list doc;
  oplog : list db_op;
}.

Definition insert (full_json : doc) (db : database) : nat * database :=
  (length (docs db),
   {| docs := docs db ++ [full_json]; oplog := oplog db ++ [Insert full_json] |}).

Definition update (id : nat) (sets : doc) (db : database) : database :=
  {| docs := alter (λ d, sets ∪ d) id (docs db);
     oplog := oplog db ++ [Update id sets] |}.

(** The helpers of [alp.backend.common], the path imported from
    [alp.appcom], and the two readings of the clock. *)
Context (create_model_hash : model_dict → value → string)
        (create_data_hash : list batch → string)
        (create_param_dump : string → string → string → string)
        (_path_h5 : string)
        (started finished : Z).

(** Lines 270-271. *)
Definition with_batch_size (kwargs : gmap string value) : gmap string value :=
  if is_None (kwargs_get kwargs "batch_size")
  then <["batch_size" := VInt 32]> kwargs
  else kwargs.

(** Lines 280-291, the document that is inserted. *)
Definition full_json (backend_name : string) (backend_version : value)
    (model : model_dict) (hexdi_m hexdi_d params_dump : string)
    (batch_size : value) : doc :=
  list_to_map [
    ("backend_name", VStr backend_name);
    ("backend_version", backend_version);
    ("model_arch", VArch (model_arch model));
    ("datetime", VDate started);
    ("mod_id", VStr hexdi_m);
    ("data_id", VStr hexdi_d);
    ("params_dump", VStr params_dump);
    ("batch_size", batch_size);
    ("trained", VInt 0);
    ("data_path", VStr "sent");
    ("root", VStr "sent");
    ("data_s", VStr "sent")
  ].

(** [np.min] of a metric: the smallest entry of a history. *)
Definition min_of (v : value) : result value :=
  match v with
  | VNums xs => x ← np_min K xs; Ok (VNum x)
  | _ => Ok v
  end.

(** Lines 302-305, over the items of [results['metrics']]. *)
Definition fill (items : list (string * value)) (res_dict : doc) : result doc :=
  foldM (λ res_dict '(metric, v),
           let res_dict := <[metric := v]> res_dict in
           if decide (metric ∈ ["loss"; "val_loss"]) then
             m ← min_of v; Ok (<[metric := m]> res_dict)
           else Ok res_dict)
        res_dict items.

(** Lines 298-305. *)
Definition res_dict_of (r : results) : result doc :=
  iter ← from_option Ok (Raise (KeyError "iter")) (r_metrics r !! "iter");
  let res_dict : doc :=
    list_to_map [("iter_stopped", iter); ("trained", VInt 1);
                 ("date_finished_training", VDate finished)] in
  fill (map_to_list (r_metrics r)) res_dict.

(** The body of the [try]. *)
Definition training (model : model_dict) (data data_val : list batch)
    (args : list value) (kwargs : gmap string value)
    (mod_id : nat) (hexdi_m hexdi_d params_dump : string) (db : database)
    : result results * database :=
  match train (model_arch model) data data_val args kwargs with
  | Raise e => (Raise e, db)
  | Ok (results, model_k) =>
      match res_dict_of results with
      | Raise e => (Raise e, db)
      | Ok res_dict =>
          let db := update mod_id res_dict db in
          match save_weights K model_k params_dump with
          | Raise e => (Raise e, db)
          | Ok _ =>
              (Ok {| r_metrics := r_metrics results;
                     model_id := Some hexdi_m;
                     data_id := Some hexdi_d;
                     r_params_dump := Some params_dump |}, db)
          end
      end
  end.

Definition fit (backend_name : string) (backend_version : value)
    (model : model_dict) (data data_val : list batch)
    (args : list value) (kwargs : gmap string value) (db : database)
    : result results * database :=
  let kwargs := with_batch_size kwargs in
  match kwargs !! "batch_size" with
  | None => (Raise (KeyError "batch_size"), db)
  | Some batch_size =>
      let hexdi_m := create_model_hash model batch_size in
      let hexdi_d := create_data_hash data in
      let params_dump := create_param_dump _path_h5 hexdi_m hexdi_d in
      let full_json :=
        full_json backend_name backend_version model hexdi_m hexdi_d
                  params_dump batch_size in
      let '(mod_id, db) := insert full_json db in
      match training model data data_val args kwargs mod_id hexdi_m hexdi_d
                     params_dump db with
      | (Raise e, db) =>
          (* except Exception: *)
          if is_Exception e
          then (Raise e, update mod_id {[ "error" := VInt 1 ]} db)
          else (Raise e, db)
      | (Ok results, db) => (Ok results, db)
      end
  end.

(** *** predict *)

(** An entry of [COMPILED_MODELS]. *)
Record compiled : Type := {
  pred : predfun;
  model : kmodel;
}.

(** The steps that rebuild a model, as [predict] takes them. *)
Inductive step : Type :=
  | Rebuild (model_dict : arch)
  | LoadWeights (path : string)
  | BuildPredictFunc.

(** The module-level dict, and the rebuilding steps taken so far. *)
Record module_state : Type := {
  COMPILED_MODELS : gmap string compiled;
  steps : list step;
}.

Definition took (s : step) (st : module_state) : module_state :=
  {| COMPILED_MODELS := COMPILED_MODELS st; steps := steps st ++ [s] |}.

Definition store (id : string) (c : compiled) (st : module_state) : module_state :=
  {| COMPILED_MODELS := <[id := c]> (COMPILED_MODELS st); steps := steps st |}.

(** [model_dict.pop('optimizer')] *)
Definition pop_optimizer (model_dict : arch) : result arch :=
  match optimizer model_dict with
  | None => Raise (KeyError "optimizer")
  | Some _ =>
      Ok {| config := config model_dict; optimizer := None;
            loss := loss model_dict; metrics := metrics model_dict;
            others := others model_dict |}
  end.

(** Lines 340-357, the branch of a model that is not in the dict. *)
Definition compile_model (model : model_dict) (custom_objects : value)
    (st : module_state) : result (predfun * kmodel * option string) * module_state :=
  match pop_optimizer (model_arch model) with
  | Raise e => (Raise e, st)
  | Ok model_dict =>
      let st := took (Rebuild model_dict) st in
      match model_from_dict_w_opt model_dict custom_objects with
      | Raise e => (Raise e, st)
      | Ok model_k =>
          let model_name := class_name (config model_dict) in
          let st := took (LoadWeights (params_dump model)) st in
          match load_weights K model_k (params_dump model) with
          | Raise e => (Raise e, st)
          | Ok model_k =>
              let st := took BuildPredictFunc st in
              match build_predict_func model_k with
              | Raise e => (Raise e, st)
              | Ok pred_function =>
                  let st :=
                    store (mod_id model)
                          {| pred := pred_function; model := model_k |} st in
                  (Ok (pred_function, model_k, model_name), st)
              end
          end
      end
  end.

Definition as_list (data : pdata) : list pdata :=
  match data with
  | PList items => items
  | _ => [data]
  end.

(** [[data[n] for n in model_k.input_names]] *)
Definition by_input_names (model_k : kmodel) (named : gmap string pdata)
    : result (list pdata) :=
  names ← input_names K model_k;
  mapM (λ n, from_option Ok (Raise (KeyError n)) (named !! n)) names.

(** Lines 359-375. *)
Definition arrange (model_name : option string) (model_k : kmodel) (data : pdata)
    : result (list pdata) :=
  if decide (model_name = Some "Graph") then
    data ← match data with
           | PDict named => items ← by_input_names model_k named; Ok (PList items)
           | _ => Ok data
           end;
    Ok (as_list data)
  else if decide (model_name = Some "Sequential") then
    Ok (as_list data)
  else if decide (model_name = Some "Model") then
    match data with
    | PDict named => by_input_names model_k named
    | _ => Ok (as_list data)
    end
  else
    Raise (NotImplementedError
             (format_name model_name +:+ ": This type of model is not supported")).

(** [COMPILED_MODELS[id]['pred']] and [COMPILED_MODELS[id]['model']] *)
Definition compiled_for (st : module_state) (id : string) : option (predfun * kmodel) :=
  (λ c, (pred c, model c)) <$> COMPILED_MODELS st !! id.

Definition predict (model : model_dict) (data : pdata)
    (args : list value) (kwargs : gmap string value) (st : module_state)
    : result (list tensor) * module_state :=
  let custom_objects := kwargs_get kwargs "custom_objects" in
  let '(compiled, st) :=
    match compiled_for st (mod_id model) with
    | Some (pred_function, model_k) =>
        (Ok (pred_function, model_k,
             class_name (config (model_arch model))), st)
    | None => compile_model model custom_objects st
    end in
  ('(pred_function, model_k, model_name) ← compiled;
   data ← arrange model_name model_k data;
   call K pred_function data, st).

(** *** Vocabulary of the statements *)

(** The batch size [fit] goes on with. *)
Definition batch_size_of (kwargs : gmap string value) : value :=
  if is_None (kwargs_get kwargs "batch_size") then VInt 32
  else kwargs_get kwargs "batch_size".

(** The document [fit] inserts, from the arguments of the call. *)
Definition inserted (backend_name : string) (backend_version : value)
    (model : model_dict) (data : list batch) (kwargs : gmap string value)
    : doc :=
  let batch_size := batch_size_of kwargs in
  let hexdi_m := create_model_hash model batch_size in
  let hexdi_d := create_data_hash data in
  full_json backend_name backend_version model hexdi_m hexdi_d
            (create_param_dump _path_h5 hexdi_m hexdi_d) batch_size.

(** What lines 302-305 store for one metric. *)
Definition persisted (metric : string) (v : value) (d : doc) : Prop :=
  if decide (metric ∈ ["loss"; "val_loss"])
  then ∃ m, min_of v = Ok m ∧ d !! metric = Some m
  else d !! metric = Some v.

(** A library that differs in how it compiles a model and finds an
    optimizer. *)
Definition compiling (L : library)
    (compile' : kmodel → list (string * carg) → result kmodel)
    (optimizers_get' : json → gmap string json → result optimizer_obj)
    : library := {|
  dill_loads := dill_loads L;
  layer_from_config := layer_from_config L;
  optimizers_get := optimizers_get';
  compile := compile';
  metrics_names := metrics_names L;
  class_of := class_of L;
  input_names := input_names L;
  model_fit := model_fit L;
  save_weights := save_weights L;
  load_weights := load_weights L;
  K_function := K_function L;
  call := call L;
  np_min := np_min L;
|}.


(** No metric is called 'iter', or 'val_' followed by the name of a
    metric. *)
Definition plain_names (names : list string) : Prop :=
  ("iter" ∉ names) ∧ ∀ n n', n ∈ names → n' ∈ names → n' ≠ ("val_" +:+ n).

(** The entry under 'val_' and a name is the entry under the name. *)
Definition mirrored (names : list string) (metrics : gmap string value) : Prop :=
  ∀ n, n ∈ names → metrics !! ("val_" +:+ n) = metrics !! n.

(** The class names [predict] knows. *)
Definition supported : list (option string) :=
  [Some "Graph"; Some "Sequential"; Some "Model"].

Definition unsupported_message (model_name : option string) : string :=
  format_name model_name +:+ ": This type of model is not supported".

End with_keras.

End keras_backend.

(** ** A small library to run the tasks on *)

Module instances.
Import keras_backend.

(** A model is its class name and the weights file it was given. *)
Record toy_model : Type := {
  toy_class : string;
  toy_weights : option string;
}.

(** Metric values are integers and arrays are lists of them.  Every call
    returns, except [model.fit], whose outcome is the parameter, and
    [np.min] of an empty list. *)
Definition toy (fitted : result (@History Z))
    : @library Z (list Z) toy_model string toy_model := {|
  dill_loads := Ok;
  layer_from_config := λ c _,
    Ok {| toy_class := default "" (class_name c); toy_weights := None |};
  optimizers_get := λ _ _, Ok "optimizer";
  compile := λ m _, Ok m;
  metrics_names := λ _, Ok ["loss"; "acc"];
  class_of := λ m, {| text := toy_class m; interned := true |};
  input_names := λ _, Ok ["X"];
  model_fit := λ m _ _ _, h ← fitted; Ok (h, m);
  save_weights := λ _ _, Ok ();
  load_weights := λ m path,
    Ok {| toy_class := toy_class m; toy_weights := Some path |};
  K_function := Ok;
  call := λ _ data, Ok [];
  np_min := λ xs,
    match xs with
    | [] => Raise ValueError
    | x :: xs => Ok (foldr Z.min x xs)
    end;
|}.

Definition three_epochs : @History Z := {|
  history := {[ "loss" := [3; 1; 2]; "acc" := [5; 6; 7] ]}%Z;
  epoch := [0; 1; 2]%Z;
|}.

Definition a_model (class : string) (optimizer : option (gmap string json))
    : model_dict := {|
  mod_id := "4f2a";
  model_arch := {|
    config := {| class_name := Some class; config_m := JArr [] |};
    optimizer := optimizer;
    loss := Some {[ "dense_1" := "mse" ]};
    metrics := Some (JArr [JStr "acc"]);
    others := ∅;
  |};
  params_dump := "/parameters_h5/4f2a.h5";
|}.

Definition sgd : option (gmap string json) := Some {[ "name" := JStr "sgd" ]}.

Definition a_batch : @batch (list Z) :=
  {[ "X" := PArr [1; 2]; "y" := PArr [0; 1] ]}%Z.

Definition empty_db : @database Z := {| docs := []; oplog := [] |}.

Definition empty_state : @module_state toy_model toy_model :=
  {| COMPILED_MODELS := ∅; steps := [] |}.

(** [fit] and [predict] on that library, the hashes being the id of the
    model and a constant. *)
Definition toy_fit (fitted : result (@History Z)) (model : model_dict)
    (kwargs : gmap string (@value Z)) :=
  fit (toy fitted) (λ m _, mod_id m) (λ _, "d0") (λ p m d, p +:+ m +:+ d)
      "/parameters_h5/" 10 20 "keras" (VStr "1.0.8") model
      [a_batch] [a_batch] [] kwargs empty_db.

Definition toy_inserted (model : model_dict) (kwargs : gmap string (@value Z))
    : gmap string (@value Z) :=
  inserted (λ m _, mod_id m) (λ _, "d0") (λ p m d, p +:+ m +:+ d)
           "/parameters_h5/" 10 "keras" (VStr "1.0.8") model [a_batch] kwargs.

Definition toy_predict (model : model_dict) :=
  predict (toy (Ok three_epochs)) model (PArr [1; 2]%Z) [] ∅.

(** The same library with a disk that is full. *)
Definition toy_disk_full : @library Z (list Z) toy_model string toy_model := {|
  dill_loads := dill_loads (toy (Ok three_epochs));
  layer_from_config := layer_from_config (toy (Ok three_epochs));
  optimizers_get := optimizers_get (toy (Ok three_epochs));
  compile := compile (toy (Ok three_epochs));
  metrics_names := metrics_names (toy (Ok three_epochs));
  class_of := class_of (toy (Ok three_epochs));
  input_names := input_names (toy (Ok three_epochs));
  model_fit := model_fit (toy (Ok three_epochs));
  save_weights := λ _ _, Raise (Exception "No space left on device");
  load_weights := load_weights (toy (Ok three_epochs));
  K_function := K_function (toy (Ok three_epochs));
  call := call (toy (Ok three_epochs));
  np_min := np_min (toy (Ok three_epochs));
|}.

(** A compiled model with two outputs and one loss function, and a
    model that was not compiled. *)
Definition two_outputs : keras_model := {|
  m_class := "Model";
  m_get_config := Ok (JArr []);
  m_optimizer := Some (Ok {[ "name" := JStr "sgd" ]});
  m_loss := Some (LossObject (Function "mean_squared_error"));
  m_output_layers := Ok ["dense_1"; "dense_2"];
|}.

Definition not_compiled : keras_model := {|
  m_class := "Sequential";
  m_get_config := Ok (JArr []);
  m_optimizer := None;
  m_loss := None;
  m_output_layers := Ok ["dense_1"];
|}.

End instances.

(** * Properties *)

Module utils_props.
Import utils.

Lemma subscript_head {V} (k : string) (v : V) rest :
  subscript ((k, v) :: rest) k = Ok v.
Proof. simpl. by rewrite decide_True. Qed.

(** C8: on a non-empty dict whose first array has length [L], [sliced]
    returns [(offset - L, offset - L + nb_train, offset - L + nb_train +
    nb_test)] when [L > nb_train + nb_test + offset], and fails its
    assertion when [L <= nb_train + nb_test + offset]. *)
Theorem sliced_spec {A} (data : list (string * list A)) (k : string)
    (arr : list A) (nb_train nb_test offset L : Z) :
  head data = Some (k, arr) →
  L = len arr →
  ((L > nb_train + nb_test + offset)%Z →
     sliced data nb_train nb_test offset
     = Ok ((offset - L)%Z, (offset - L + nb_train)%Z,
           (offset - L + nb_train + nb_test)%Z))
  ∧ ((L ≤ nb_train + nb_test + offset)%Z →
     sliced data nb_train nb_test offset = Raise AssertionError).
Proof.
  intros Hhead ->. destruct data as [|[k' arr'] rest]; simplify_eq/=.
  unfold sliced. cbn [keys fmap list_fmap head fst mbind result_bind from_option].
  rewrite subscript_head. cbn [mbind result_bind].
  split; intros HL.
  - by rewrite bool_decide_true.
  - rewrite bool_decide_false; [done | lia].
Qed.

Lemma sliced_spec_witness :
  sliced [("X", [1; 2; 3; 4; 5; 6; 7; 8; 9; 10]); ("y", [0; 1])] 4 2 1
  = Ok ((-9)%Z, (-5)%Z, (-3)%Z)
  ∧ sliced [("X", [1; 2; 3]); ("y", [0; 1])] 2 1 0 = Raise AssertionError.
Proof.
  split.
  - apply (sliced_spec [("X", [1; 2; 3; 4; 5; 6; 7; 8; 9; 10]); ("y", [0; 1])]
             "X" [1; 2; 3; 4; 5; 6; 7; 8; 9; 10] 4 2 1 10);
      [reflexivity | reflexivity | reflexivity].
  - apply (sliced_spec [("X", [1; 2; 3]); ("y", [0; 1])]
             "X" [1; 2; 3] 2 1 0 3); [reflexivity | reflexivity |].
    unfold Z.le. simpl. discriminate.
Defined.

(** An empty dict leaves [first] unbound. *)
Lemma sliced_empty {A} nb_train nb_test offset :
  sliced (@nil (string * list A)) nb_train nb_test offset
  = Raise (UnboundLocalError "first").
Proof. reflexivity. Qed.

(** C10: [switch_backend] gives for 'sklearn' what it gives for 'keras',
    the backend of the Keras module, and for every other name it fails
    on the unbound local [get_backend]. *)
Theorem switch_backend_spec {pymodule} (import_module : string → result pymodule) :
  switch_backend import_module "sklearn" = switch_backend import_module "keras"
  ∧ switch_backend import_module "keras" = get_backend import_module ()
  ∧ ∀ backend_name, backend_name ≠ "keras" → backend_name ≠ "sklearn" →
      switch_backend import_module backend_name
      = Raise (UnboundLocalError "get_backend").
Proof.
  split_and!; [done | done |].
  intros name H1 H2. unfold switch_backend.
  by rewrite !decide_False.
Qed.

Lemma switch_backend_spec_witness :
  switch_backend (λ name, Ok name) "theano" = Raise (UnboundLocalError "get_backend").
Proof.
  apply (switch_backend_spec (λ name, Ok name)); discriminate.
Defined.

(** *** sliced *)

(** X1: with counts and offset that are not negative, the indexes [sliced]
    returns count from the end of the first array and stay inside it: the
    train slice has [nb_train] rows, the test slice [nb_test], and the
    test slice stops before the last row. *)
Theorem sliced_within {A} (data : list (string * list A)) (k : string)
    (arr : list A) (nb_train nb_test offset beg endt endv : Z) :
  head data = Some (k, arr) →
  (0 ≤ nb_train)%Z → (0 ≤ nb_test)%Z → (0 ≤ offset)%Z →
  sliced data nb_train nb_test offset = Ok (beg, endt, endv) →
  (- len arr ≤ beg ∧ beg ≤ endt ∧ endt ≤ endv ∧ endv < 0)%Z
  ∧ (endt - beg = nb_train)%Z ∧ (endv - endt = nb_test)%Z.
Proof.
  intros Hhead Ht Hv Ho. destruct data as [|[k' arr'] rest]; simplify_eq/=.
  unfold sliced. cbn [keys fmap list_fmap head fst mbind result_bind from_option].
  rewrite subscript_head. cbn [mbind result_bind].
  case_bool_decide as HL; [| done].
  intros [= <- <- <-]. lia.
Qed.

Lemma sliced_within_witness :
  (- len [1; 2; 3; 4; 5; 6; 7; 8; 9; 10] ≤ -9 ∧ -9 ≤ -5 ∧ -5 ≤ -3 ∧ -3 < 0)%Z
  ∧ (-5 - -9 = 4)%Z ∧ (-3 - -5 = 2)%Z.
Proof.
  apply (sliced_within [("X", [1; 2; 3; 4; 5; 6; 7; 8; 9; 10]); ("y", [0; 1])]
           "X" [1; 2; 3; 4; 5; 6; 7; 8; 9; 10] 4 2 1 (-9) (-5) (-3));
    first [reflexivity | lia].
Defined.

(** *** dict_of *)

Lemma dict_of_snoc {V} (pairs : list (string * V)) k v :
  dict_of (pairs ++ [(k, v)]) = <[k := v]> (dict_of pairs).
Proof. unfold dict_of. by rewrite foldl_snoc. Qed.

Lemma insert_all_lookup_ne {V} (pairs : list (string * V)) (d : gmap string V) k :
  k ∉ pairs.*1 →
  foldl (λ d '(k, v), <[k := v]> d) d pairs !! k = d !! k.
Proof.
  revert d. induction pairs as [|[k' v'] pairs IH]; intros d Hk; [done |].
  cbn in Hk. apply not_elem_of_cons in Hk as [Hne Hk]. simpl.
  rewrite IH by done. by rewrite lookup_insert_ne.
Qed.

Lemma insert_all_NoDup {V} (pairs : list (string * V)) (d : gmap string V) :
  NoDup pairs.*1 →
  foldl (λ d '(k, v), <[k := v]> d) d pairs = list_to_map pairs ∪ d.
Proof.
  revert d. induction pairs as [|[k v] pairs IH]; intros d Hnd.
  - simpl. by rewrite (left_id_L ∅ (∪)).
  - cbn in Hnd. apply NoDup_cons in Hnd as [Hk Hnd]. simpl.
    rewrite IH by done. rewrite <- insert_union_l.
    rewrite insert_union_r; [done |]. by apply not_elem_of_list_to_map_1.
Qed.

Lemma dict_of_NoDup {V} (pairs : list (string * V)) :
  NoDup pairs.*1 → dict_of pairs = list_to_map pairs.
Proof.
  intros Hnd. unfold dict_of. rewrite insert_all_NoDup by done.
  by rewrite (right_id_L ∅ (∪)).
Qed.

(** *** list_to_dict *)

(** X2: [list_to_dict] keeps, under a name, the last element of the list that
    has it. *)
Theorem list_to_dict_last {A} (__name__ : A → string) (l1 : list A) (el : A)
    (l2 : list A) :
  (∀ x, x ∈ l2 → __name__ x ≠ __name__ el) →
  list_to_dict __name__ (l1 ++ el :: l2) !! __name__ el = Some el.
Proof.
  intros Hlast. unfold list_to_dict, dict_of.
  rewrite fmap_app, foldl_app. simpl.
  rewrite insert_all_lookup_ne; [by rewrite lookup_insert_eq |].
  rewrite <- list_fmap_compose. intros (x & Hx & Hin)%list_elem_of_fmap.
  simpl in Hx. by apply (Hlast x).
Qed.

Lemma list_to_dict_last_witness :
  list_to_dict fst ([("np", 1); ("os", 2)] ++ ("np", 3) :: [("sys", 4)]) !! "np"
  = Some ("np", 3).
Proof.
  apply (list_to_dict_last fst [("np", 1); ("os", 2)] ("np", 3) [("sys", 4)]).
  intros x Hx. apply list_elem_of_singleton in Hx. by subst.
Defined.

(** *** imports *)

Lemma bind_missing_union {A} (packs globals : gmap string A) :
  bind_missing packs globals = globals ∪ packs.
Proof.
  unfold bind_missing. rewrite <- (list_to_map_to_list packs) at 2.
  pose proof (NoDup_fst_map_to_list packs) as Hnd. revert globals.
  induction (map_to_list packs) as [|[k v] l IH]; intros g.
  - simpl. by rewrite (right_id_L ∅ (∪)).
  - cbn in Hnd. apply NoDup_cons in Hnd as [Hk Hnd]. simpl. rewrite IH by done.
    destruct (decide (is_Some (g !! k))) as [[x Hx]|Hnone].
    + apply map_eq. intros i. rewrite !lookup_union.
      destruct (decide (i = k)) as [->|Hne].
      * rewrite Hx, lookup_insert_eq.
        by destruct (list_to_map l !! k).
      * by rewrite lookup_insert_ne.
    + apply eq_None_not_Some in Hnone.
      rewrite <- insert_union_l. by rewrite insert_union_r.
Qed.

(** The packages a decorator brings. *)
Lemma imports_unfold {A Args R} (__name__ : A → string) (pkgs : packages)
    (wrapped : pyfunction Args R) args (modules : gmap string (gmap string A)) :
  __call__ (imports __name__ pkgs wrapped) args modules
  = __call__ wrapped args
      (<[__globals__ wrapped :=
           globals_of wrapped modules
           ∪ match pkgs with
             | NoPackages => ∅
             | PackageList l => list_to_dict __name__ l
             | PackageDict d => d
             end]> modules).
Proof. unfold imports. destruct pkgs; simpl; by rewrite bind_missing_union. Qed.

(** X3: the decorated function runs on the globals of its module, in which
    the packages are bound and no name was rebound: a name that is
    already there keeps its value, and the globals of the other modules
    are as they were.  The function the decorator returns is one of
    [alp.appcom.utils]: decorating it again binds the new packages in
    the globals of that module, and not in those of the function. *)
Theorem imports_binds_missing {A Args R} (__name__ : A → string)
    (pkgs pkgs' : packages) (wrapped : pyfunction Args R) args
    (modules : gmap string (gmap string A)) :
  let packs := λ pkgs, match pkgs with
                       | NoPackages => ∅
                       | PackageList l => list_to_dict __name__ l
                       | PackageDict d => d
                       end in
  let globals := globals_of wrapped modules in
  let globals' := globals ∪ packs pkgs in
  __call__ (imports __name__ pkgs wrapped) args modules
  = __call__ wrapped args (<[__globals__ wrapped := globals']> modules)
  ∧ globals ⊆ globals'
  ∧ (∀ el l, pkgs = PackageList l → el ∈ l → is_Some (globals' !! __name__ el))
  ∧ (∀ d, pkgs = PackageDict d → dom globals' = dom globals ∪ dom d)
  ∧ __globals__ (imports __name__ pkgs wrapped) = "alp.appcom.utils"
  ∧ (__globals__ wrapped ≠ "alp.appcom.utils" →
     __call__ (imports __name__ pkgs' (imports __name__ pkgs wrapped)) args modules
     = __call__ wrapped args
         (<[__globals__ wrapped := globals']>
            (<["alp.appcom.utils" :=
                 default ∅ (modules !! "alp.appcom.utils") ∪ packs pkgs']> modules))).
Proof.
  intros packs globals globals'. split_and!.
  - apply imports_unfold.
  - apply map_union_subseteq_l.
  - intros el l -> Hel. apply list_elem_of_split in Hel as (l1 & l2 & ->).
    unfold globals'. rewrite lookup_union.
    assert (∃ el', list_to_dict __name__ (l1 ++ el :: l2) !! __name__ el = Some el')
      as [el' Hel']; [| simpl; rewrite Hel'; by destruct (globals !! __name__ el)].
    clear. induction l2 as [|y l2 IH] using rev_ind.
    + exists el. unfold list_to_dict. rewrite fmap_app. simpl.
      by rewrite dict_of_snoc, lookup_insert_eq.
    + destruct IH as [el' IH]. unfold list_to_dict in *.
      rewrite app_comm_cons, app_assoc, fmap_app. simpl. rewrite dict_of_snoc.
      destruct (decide (__name__ y = __name__ el)) as [->|Hne].
      * exists y. by rewrite lookup_insert_eq.
      * exists el'. by rewrite lookup_insert_ne.
  - intros d ->. unfold globals'. simpl. by rewrite dom_union_L.
  - done.
  - intros Hne. rewrite (imports_unfold __name__ pkgs'), imports_unfold.
    change (__globals__ (imports __name__ pkgs wrapped)) with "alp.appcom.utils".
    unfold globals_of at 1. rewrite lookup_insert_ne by done.
    done.
Qed.

Lemma imports_binds_missing_witness :
  let tasks := {| __globals__ := "tasks";
                  __call__ := λ (_ : ()) (modules : gmap string (gmap string nat)),
                    (Ok (default ∅ (modules !! "tasks")), modules) |} in
  __call__ (imports (λ _, "np") (PackageDict {[ "os" := 2 ]})
              (imports (λ _, "np") (PackageList [1]) tasks)) () ∅
  = (Ok {[ "np" := 1 ]},
     <["tasks" := {[ "np" := 1 ]}]> (<["alp.appcom.utils" := {[ "os" := 2 ]}]> ∅)).
Proof.
  intros tasks.
  refine (eq_trans
            (proj2 (proj2 (proj2 (proj2 (proj2
               (imports_binds_missing (λ _, "np") (PackageList [1])
                  (PackageDict {[ "os" := 2 ]}) tasks () ∅))))) _) _).
  - discriminate.
  - by vm_compute.
Defined.

(** *** norm_iterator and max_v_len *)

(** X4: a list comes back in order, each item under its own name
    [suf_list_i]; no two names are the same. *)
Theorem norm_iterator_list {A} (l : list A) (suf : string) :
  ∃ pairs,
    norm_iterator (AList l) suf = Some pairs
    ∧ pairs.*2 = l
    ∧ NoDup pairs.*1
    ∧ ∀ i x, l !! i = Some x →
        pairs !! i = Some (suf +:+ "_list_" +:+ pretty i, x).
Proof.
  eexists. split; [done |].
  set (names := imap (λ i _, suf +:+ "_list_" +:+ pretty i) l).
  assert (length names = length l) as Hlen by apply length_imap.
  split_and!.
  - apply snd_zip. lia.
  - rewrite fst_zip by lia. apply NoDup_alt. intros i j s Hi Hj.
    unfold names in Hi, Hj. rewrite list_lookup_imap in Hi, Hj.
    destruct (l !! i); [| done]. destruct (l !! j); [| done].
    simpl in *. injection Hi as <-. injection Hj as Hj.
    apply (inj (String.app suf)) in Hj. apply (inj (String.app "_list_")) in Hj.
    by apply (inj pretty) in Hj.
  - intros i x Hx. apply lookup_zip_Some. split; [| done].
    unfold names. rewrite list_lookup_imap. by rewrite Hx.
Qed.

Lemma longest (B : Type) (pairs : list (string * list B)) (n : nat) :
  let m := foldl (λ max_v '(k, v),
                    if bool_decide (max_v < length v) then length v else max_v)
                 n pairs in
  n ≤ m
  ∧ (∀ k v, (k, v) ∈ pairs → length v ≤ m)
  ∧ (m = n ∨ ∃ k v, (k, v) ∈ pairs ∧ length v = m).
Proof.
  revert n. induction pairs as [|[k v] pairs IH]; intros n; simpl.
  - split_and!; [done | by intros ?? ?%elem_of_nil | by left].
  - destruct (IH (if bool_decide (n < length v) then length v else n))
      as (Hle & Hall & Hmax).
    case_bool_decide as Hn; split_and!.
    + lia.
    + intros k' v' [[= -> ->]|Hin]%elem_of_cons; [done | by eapply Hall].
    + right. destruct Hmax as [->|(k' & v' & Hin & Hlen)].
      * exists k, v. split; [left | done].
      * exists k', v'. split; [by right | done].
    + done.
    + intros k' v' [[= -> ->]|Hin]%elem_of_cons; [lia | by eapply Hall].
    + destruct Hmax as [->|(k' & v' & Hin & Hlen)]; [by left |].
      right. exists k', v'. split; [by right | done].
Qed.

(** X5: [max_v_len] returns the length of a longest array, 0 when there is
    none; on what is neither a list nor a dict it raises [TypeError]. *)
Theorem max_v_len_longest {B} (iterable_to_check : iterable (list B)) :
  match norm_iterator iterable_to_check "suf" with
  | None => max_v_len iterable_to_check = Raise TypeError
  | Some pairs =>
      ∃ n, max_v_len iterable_to_check = Ok n
        ∧ (∀ k v, (k, v) ∈ pairs → length v ≤ n)
        ∧ (pairs = [] → n = 0)
        ∧ (pairs ≠ [] → ∃ k v, (k, v) ∈ pairs ∧ length v = n)
  end.
Proof.
  unfold max_v_len.
  destruct (norm_iterator iterable_to_check "suf") as [pairs|]; [| done].
  eexists. split; [done |].
  destruct (longest B pairs 0) as (_ & Hall & Hmax). split_and!.
  - done.
  - by intros ->.
  - intros Hne. destruct Hmax as [H0|?]; [| done].
    destruct pairs as [|[k v] pairs]; [done |].
    exists k, v. split; [left |].
    pose proof (Hall k v (list_elem_of_here _ _)). lia.
Qed.

(** *** izip_dict *)

Lemma insert_items {V} (d : gmap string V) :
  foldl (λ results (i : string * V), <[i.1 := i.2]> results) ∅ (map_to_list d) = d.
Proof.
  rewrite <- (list_to_map_to_list d) at 2.
  rewrite <- dict_of_NoDup by apply NoDup_fst_map_to_list.
  unfold dict_of. generalize (∅ : gmap string V).
  induction (map_to_list d) as [|[k v] l IH]; intros acc; [done | apply IH].
Qed.

(** X6: the generator does not zip: it yields one dict for each dict it is
    given, with the same entries, in the same order. *)
Theorem izip_dict_same {V} (iterables : list (gmap string V)) :
  izip_dict iterables = iterables.
Proof.
  unfold izip_dict, zip1. rewrite <- !list_fmap_compose.
  induction iterables as [|d iterables IH]; [done |].
  cbn. rewrite insert_items. by f_equal.
Qed.

(** *** to_fuel_h5 *)

Section fuel.
Context {B split_array : Type}.
Context (path_join : string → string → string)
        (h5py_File : string → result ())
        (create_dataset : string → list B → result ())
        (assign : string → list B → result ())
        (create_split_array : split_dict → result split_array)
        (flush close : list h5_op → result ()).





End fuel.


End utils_props.

Module dbbackend_props.
Import dbbackend.

Lemma in_engines_true x : in_engines x = Ok true ↔ x = JStr "mongodb".
Proof.
  split; [| by intros ->].
  destruct x; simpl; try done.
  intros [= H]. apply bool_decide_eq_true in H. by subst.
Qed.

(** What the engine check makes of a loaded object. *)
Lemma load_object (m : gmap string json) :
  let engine := default (JStr "mongodb") (m !! "db_engine") in
  load (JObj m)
  = if eq_str engine "mongodb" then Ok (bound m)
    else Raise (if unhashable engine then TypeError else AssertionError).
Proof.
  unfold load, bound. cbn [dict_get mbind result_bind].
  destruct (default (JStr "mongodb") (m !! "db_engine")) as [| | | |s| |] eqn:E;
    cbn [in_engines eq_str mbind result_bind negb unhashable]; try done.
  case_bool_decide as Hs; [by subst | done].
Qed.

Lemma eq_str_true (x : json) (s : string) : eq_str x s = true ↔ x = JStr s.
Proof.
  destruct x; simpl; try (split; [done | congruence]).
  rewrite bool_decide_eq_true. split; congruence.
Qed.

(** C6, as the code has it: loading a JSON object applies the per-key
    defaults and checks one loaded value, the engine.  With the engine
    'mongodb' (stored or defaulted) the load returns whatever the other
    entries hold, and the import goes on to write them.  With any other
    engine the import raises in the load, before it asks for the file to
    be written: [TypeError] for a list or an object, which the set
    membership cannot hash, and [AssertionError] for everything else. *)
Theorem load_checks_engine_only (env : environment) (test_mode : bool)
    (m : gmap string json) :
  let engine := default (JStr "mongodb") (m !! "db_engine") in
  let run := module_body env test_mode (Some (JObj m)) in
  (engine = JStr "mongodb" →
     load (JObj m) = Ok (bound m)
     ∧ ∃ actions, run.2 = Write (saved (bound m)) :: actions)
  ∧ (engine ≠ JStr "mongodb" →
     let e := if unhashable engine then TypeError else AssertionError in
     load (JObj m) = Raise e ∧ run = (Raise e, [])).
Proof.
  intros engine run. unfold run, module_body.
  rewrite load_object. fold engine. split; intros He.
  - apply eq_str_true in He as ->. split; [done |].
    destruct (write_config env _); [| by eexists].
    destruct (import_backend env _). by eexists.
  - destruct (eq_str engine "mongodb") eqn:E; [by apply eq_str_true in E | done].
Qed.

Lemma load_checks_engine_only_witness :
  (load (JObj {[ "host_port" := JStr "not a port"; "db_name" := JNull ]})
   = Ok (bound {[ "host_port" := JStr "not a port"; "db_name" := JNull ]})
   ∧ ∃ actions,
       (module_body available false
          (Some (JObj {[ "host_port" := JStr "not a port"; "db_name" := JNull ]}))).2
       = Write (saved (bound {[ "host_port" := JStr "not a port"; "db_name" := JNull ]}))
         :: actions)
  ∧ (load (JObj {[ "db_engine" := JArr [] ]}) = Raise TypeError
     ∧ module_body available false (Some (JObj {[ "db_engine" := JArr [] ]}))
       = (Raise TypeError, []))
  ∧ (load (JObj {[ "db_engine" := JNum 3 ]}) = Raise AssertionError
     ∧ module_body available false (Some (JObj {[ "db_engine" := JNum 3 ]}))
       = (Raise AssertionError, [])).
Proof.
  split; [| split].
  - apply (load_checks_engine_only available false
             {[ "host_port" := JStr "not a port"; "db_name" := JNull ]}).
    reflexivity.
  - generalize (proj2 (load_checks_engine_only available false
                         {[ "db_engine" := JArr [] ]})).
    vm_compute. intros H. apply H. discriminate.
  - generalize (proj2 (load_checks_engine_only available false
                         {[ "db_engine" := JNum 3 ]})).
    vm_compute. intros H. apply H. discriminate.
Defined.

(** C6 as worded fails: a stored engine other than 'mongodb' makes the
    import raise, and the file is left as it was. *)
Lemma load_rejects_engine :
  bootstrap false (Some (JObj {[ "db_engine" := JStr "mysql" ]}))
  = (Raise AssertionError, Some (JObj {[ "db_engine" := JStr "mysql" ]})).
Proof. reflexivity. Qed.

(** A file that does not hold an object fails on [.get]. *)
Lemma load_not_an_object : load (JArr []) = Raise (AttributeError "get").
Proof. reflexivity. Qed.

(** C7 at a fresh home directory: the first import writes 'generators'
    under 'generators_collection'; the next import reads the key
    '_generators_collection', finds nothing, binds 'models', and writes
    that over the stored value. *)
Theorem generators_collection_not_recovered :
  ∃ s1 f1 s2 f2,
    bootstrap false None = (Ok s1, f1)
    ∧ written f1 "generators_collection" = Some (JStr "generators")
    ∧ bootstrap false f1 = (Ok s2, f2)
    ∧ _generators_collection s2 = JStr "models"
    ∧ written f2 "generators_collection" = Some (JStr "models").
Proof. by eexists _, _, _, _. Qed.

(** The same for the models collection: a name bound from the key
    '_models_collection' is written under 'models_collection' and is
    gone at the next import. *)
Lemma models_collection_not_recovered :
  ∃ s1 f1 s2 f2,
    bootstrap false (Some (JObj {[ "_models_collection" := JStr "runs" ]})) = (Ok s1, f1)
    ∧ written f1 "models_collection" = Some (JStr "runs")
    ∧ bootstrap false f1 = (Ok s2, f2)
    ∧ _models_collection s2 = JStr "models".
Proof. by eexists _, _, _, _. Qed.

(** The four keys that are read under the name they are written under
    do come back. *)
Lemma connection_keys_recovered (s : settings) :
  eq_str (_db_engine s) "mongodb" = true →
  ∃ s', load (saved s) = Ok s'
    ∧ _db_engine s' = _db_engine s ∧ _host_adress s' = _host_adress s
    ∧ _host_port s' = _host_port s ∧ _db_name s' = _db_name s.
Proof.
  intros He. destruct s as [e a p n mc gc]; simpl in *.
  destruct e; try done. apply bool_decide_eq_true in He as ->.
  by eexists.
Qed.

(** *** The outcomes of an import *)

Lemma load_engine (c : json) (s : settings) :
  load c = Ok s → _db_engine s = JStr "mongodb".
Proof.
  unfold load. destruct c as [| | | | | |m]; try done.
  cbn [dict_get mbind result_bind].
  destruct (in_engines _) as [[]|] eqn:E; try done.
  apply in_engines_true in E. simpl. by intros [= <-].
Qed.

(** What was bound before the file is written passed the assertion, or
    is the initial engine. *)
Lemma bound_engine (test_mode : bool) (file : option json) (s : settings) :
  match file with
  | Some _config => load _config
  | None => Ok (initial test_mode)
  end = Ok s →
  _db_engine s = JStr "mongodb".
Proof.
  destruct file as [c|]; [apply load_engine | by intros [= <-]].
Qed.


(** *** The next import *)

Lemma bootstrap_unfold (test_mode : bool) (file : option json) :
  bootstrap test_mode file
  = match (match file with
           | Some _config => load _config
           | None => Ok (initial test_mode)
           end) with
    | Raise e => (Raise e, file)
    | Ok s => (Ok s, Some (saved s))
    end.
Proof.
  unfold bootstrap, module_body.
  pose proof (bound_engine test_mode file) as He.
  destruct (match file with Some _ => _ | None => _ end) as [s|e]; [| done].
  simpl. unfold import_backend. by rewrite (He s eq_refl).
Qed.

Lemma bootstrap_returned (test_mode : bool) (file f : option json) (s : settings) :
  bootstrap test_mode file = (Ok s, f) →
  _db_engine s = JStr "mongodb" ∧ f = Some (saved s).
Proof.
  rewrite bootstrap_unfold.
  pose proof (bound_engine test_mode file) as He.
  destruct (match file with Some _ => _ | None => _ end) as [s'|e]; [| done].
  intros [= <- <-]. by split; [apply He |].
Qed.

(** X9: the engine, the host, the port and the database name an import has
    bound are the ones the next import binds, whatever TEST_MODE is
    then. *)
Theorem connection_parameters_recovered (test_mode test_mode' : bool)
    (file f : option json) (s : settings) :
  bootstrap test_mode file = (Ok s, f) →
  ∃ s' f',
    bootstrap test_mode' f = (Ok s', f')
    ∧ _db_engine s' = _db_engine s ∧ _host_adress s' = _host_adress s
    ∧ _host_port s' = _host_port s ∧ _db_name s' = _db_name s.
Proof.
  intros Hrun. apply bootstrap_returned in Hrun as [He ->].
  destruct (connection_keys_recovered s) as (s' & Hload & Hs'); [by rewrite He |].
  exists s', (Some (saved s')). split; [| done].
  rewrite bootstrap_unfold. by rewrite Hload.
Qed.

Lemma connection_parameters_recovered_witness :
  ∃ s' f',
    bootstrap false (bootstrap true None).2 = (Ok s', f')
    ∧ _db_engine s' = JStr "mongodb" ∧ _host_adress s' = JStr "127.0.0.1"
    ∧ _host_port s' = JNum 27017 ∧ _db_name s' = JStr "modelization".
Proof.
  apply (connection_parameters_recovered true false None (bootstrap true None).2
           (initial true)).
  reflexivity.
Defined.

(** X10: from the second import on nothing moves: it binds 'models' to both
    collection names, and the file it writes is the file every later
    import reads and writes back. *)
Theorem bootstrap_settles (test_mode test_mode' test_mode'' : bool)
    (file f : option json) (s : settings) :
  bootstrap test_mode file = (Ok s, f) →
  ∃ s',
    bootstrap test_mode' f = (Ok s', Some (saved s'))
    ∧ _models_collection s' = JStr "models"
    ∧ _generators_collection s' = JStr "models"
    ∧ bootstrap test_mode'' (Some (saved s')) = (Ok s', Some (saved s')).
Proof.
  intros Hrun. apply bootstrap_returned in Hrun as [He ->].
  destruct s as [e a p n mc gc]. simpl in He. subst e.
  by eexists.
Qed.

Lemma bootstrap_settles_witness :
  ∃ s',
    bootstrap false (Some (saved (initial true))) = (Ok s', Some (saved s'))
    ∧ _models_collection s' = JStr "models"
    ∧ _generators_collection s' = JStr "models"
    ∧ bootstrap true (Some (saved s')) = (Ok s', Some (saved s')).
Proof.
  apply (bootstrap_settles true false true None (Some (saved (initial true)))
           (initial true)).
  reflexivity.
Defined.

End dbbackend_props.

Module cli_props.
Import cli.

Section with_python.
Context (str_ : json → string) (_alp_dir : string).

#[local] Abbreviation reads_ok := (reads_ok str_).

Lemma unbound name :
  name ∈ ["containers"; "models_gen_db"; "base_columes"; "v"; "p"] →
  load_global _alp_dir name = Raise (NameError name).
Proof.
  rewrite !elem_of_cons, elem_of_nil.
  intros [->|[->|[->|[->|[->|[]]]]]]; reflexivity.
Qed.

Lemma parse_cont_unbound container action volumes links :
  parse_cont str_ _alp_dir container action volumes links
  = Raise (NameError "containers").
Proof. reflexivity. Qed.

Lemma subscript_entry (m : gmap string json) (key : string) :
  subscript str_ (JObj m) (JStr key)
  = from_option Ok (Raise (KeyError key)) (m !! key).
Proof. done. Qed.

Lemma iterate_raises (v : json) (e : exn) : iterate v = Raise e → e = TypeError.
Proof. destruct v; simpl; congruence. Qed.

(** C5, as the code has it: no call of [build_commands] returns a
    command list.  A configuration with the entries broker, result_db,
    model_gen_db, workers, controlers and an iterable base_volumes
    fails on the unresolved name [models_gen_db].  Any other fails
    before, on the read of the configuration and not on a name: a dict
    on the first of the six entries it lacks, with a [KeyError] for that
    entry; what is no dict, and a dict whose base_volumes cannot be
    iterated, with a [TypeError].  [parse_cont] fails on the unresolved
    name [containers] whatever it is given. *)
Theorem build_commands_never_returns (config : json) (action : string) :
  let run := build_commands str_ _alp_dir config action in
  ¬ returns run
  ∧ (reads_ok config → run = Raise (NameError "models_gen_db"))
  ∧ (∀ m before key after,
       config = JObj m → entries = before ++ key :: after →
       (∀ k, k ∈ before → is_Some (m !! k)) → m !! key = None →
       run = Raise (KeyError key))
  ∧ (¬ reads_ok config →
     (∀ m k, config = JObj m → k ∈ entries → is_Some (m !! k)) →
     run = Raise TypeError)
  ∧ (∀ container volumes links,
       parse_cont str_ _alp_dir container action volumes links
       = Raise (NameError "containers")).
Proof.
  intros run. split_and!.
  - unfold run, build_commands.
    do 7 (match goal with
          | |- ¬ returns (mbind _ ?m) =>
              destruct m; cbn [mbind result_bind]; [| by intros [? ?]]
          end).
    rewrite unbound by set_solver. cbn [mbind result_bind]. by intros [? ?].
  - intros ([b Hb] & [r Hr] & [g Hg] & [w Hw] & [c Hc] & [vs Hv]).
    unfold run, build_commands. rewrite Hb, Hr, Hg, Hw, Hc.
    cbn [mbind result_bind] in *.
    destruct (subscript str_ config (JStr "base_volumes")); [| done].
    cbn [mbind result_bind] in *. by rewrite Hv.
  - intros m before key after -> Hent Hbefore Hkey.
    unfold run, build_commands. rewrite !subscript_entry.
    unfold entries in Hent.
    repeat (destruct before as [|? before];
            [injection Hent as <- _; rewrite ?Hkey; done |];
            injection Hent as <- Hent;
            match goal with
            | |- context [from_option Ok _ (m !! ?k)] =>
                let Hk := fresh in
                destruct (Hbefore k) as [? Hk]; [set_solver |];
                rewrite Hk; cbn [from_option mbind result_bind]
            end).
    by destruct before.
  - intros Hreads Hall. unfold run, build_commands.
    destruct config as [| | | | | |m]; try done.
    unfold reads_ok in Hreads. rewrite !subscript_entry in *.
    destruct (Hall m "broker") as [b Hb]; [done | set_solver |].
    destruct (Hall m "result_db") as [r Hr]; [done | set_solver |].
    destruct (Hall m "model_gen_db") as [g Hg]; [done | set_solver |].
    destruct (Hall m "workers") as [w Hw]; [done | set_solver |].
    destruct (Hall m "controlers") as [c Hc]; [done | set_solver |].
    destruct (Hall m "base_volumes") as [v Hv]; [done | set_solver |].
    rewrite Hb, Hr, Hg, Hw, Hc, Hv in *. cbn [from_option mbind result_bind] in *.
    destruct (iterate v) as [vs|e] eqn:Hit.
    + destruct Hreads. unfold returns. split_and!; by eexists.
    + by apply iterate_raises in Hit as ->.
  - intros. apply parse_cont_unbound.
Qed.

End with_python.

Lemma build_commands_never_returns_witness :
  build_commands (λ _, "") "/root/.alp" full_config "run"
  = Raise (NameError "models_gen_db")
  ∧ build_commands (λ _, "") "/root/.alp" test_config "run"
    = Raise (KeyError "base_volumes")
  ∧ build_commands (λ _, "") "/root/.alp"
      (JObj (<["base_volumes" := JNum 3]>
               (match test_config with JObj m => m | _ => ∅ end))) "run"
    = Raise TypeError.
Proof.
  split_and!.
  - apply (build_commands_never_returns (λ _, "") "/root/.alp" full_config "run").
    unfold reads_ok, returns. repeat split; eexists; reflexivity.
  - refine (proj1 (proj2 (proj2
              (build_commands_never_returns (λ _, "") "/root/.alp" test_config "run")))
              _ ["broker"; "result_db"; "model_gen_db"; "workers"; "controlers"]
              "base_volumes" [] eq_refl eq_refl _ _).
    + intros k Hk. rewrite !elem_of_cons, elem_of_nil in Hk.
      destruct Hk as [->|[->|[->|[->|[->|[]]]]]]; vm_compute; by eexists.
    + by vm_compute.
  - refine (proj1 (proj2 (proj2 (proj2
              (build_commands_never_returns (λ _, "") "/root/.alp"
                 (JObj (<["base_volumes" := JNum 3]>
                          (match test_config with JObj m => m | _ => ∅ end)))
                 "run")))) _ _).
    + intros (_ & _ & _ & _ & _ & [vs Hvs]). by vm_compute in Hvs.
    + intros m k [= <-] Hk. unfold entries in Hk.
      rewrite !elem_of_cons, elem_of_nil in Hk.
      destruct Hk as [->|[->|[->|[->|[->|[->|[]]]]]]]; vm_compute; by eexists.
Defined.

(** C5 as worded fails on the configuration of the package's own
    tests: it has no 'base_volumes', and the call stops on that key
    before it reaches an unresolved name. *)
Lemma build_commands_test_config :
  build_commands (λ _, "") "/root/.alp" test_config "run"
  = Raise (KeyError "base_volumes").
Proof. vm_compute. reflexivity. Qed.

End cli_props.

Module keras_backend_props.
Import keras_backend.

Section with_keras.
Context {scalar tensor kmodel optimizer_obj predfun : Type}.
Context (K : @library scalar tensor kmodel optimizer_obj predfun).
Context (create_model_hash : model_dict → @value scalar → string)
        (create_data_hash : list (@batch tensor) → string)
        (create_param_dump : string → string → string → string)
        (_path_h5 : string)
        (started finished : Z).

#[local] Abbreviation value := (@value scalar).
#[local] Abbreviation batch := (@batch tensor).
#[local] Abbreviation doc := (gmap string value).
#[local] Abbreviation fit :=
  (fit K create_model_hash create_data_hash create_param_dump _path_h5
       started finished).
#[local] Abbreviation training := (training K finished).
#[local] Abbreviation inserted :=
  (inserted create_model_hash create_data_hash create_param_dump _path_h5 started).
#[local] Abbreviation persisted := (persisted K).

(** *** The inserted document *)

Lemma with_batch_size_lookup (kwargs : gmap string value) :
  with_batch_size kwargs !! "batch_size" = Some (batch_size_of kwargs).
Proof.
  unfold with_batch_size, batch_size_of, kwargs_get.
  destruct (kwargs !! "batch_size") as [v|] eqn:E; simpl.
  - destruct (is_None v) eqn:Ev; [by rewrite lookup_insert_eq | done].
  - by rewrite lookup_insert_eq.
Qed.

Lemma with_batch_size_given (kwargs : gmap string value) (n : Z) :
  with_batch_size (<["batch_size" := VInt n]> kwargs)
  = <["batch_size" := VInt n]> kwargs.
Proof.
  unfold with_batch_size, kwargs_get. by rewrite lookup_insert_eq.
Qed.

(** [fit], after the lines that cannot fail. *)
Lemma fit_unfold backend_name backend_version model data data_val args kwargs db :
  fit backend_name backend_version model data data_val args kwargs db
  = let full := inserted backend_name backend_version model data kwargs in
    let hexdi_m := create_model_hash model (batch_size_of kwargs) in
    let hexdi_d := create_data_hash data in
    let '(mod_id, db1) := insert full db in
    match training model data data_val args (with_batch_size kwargs) mod_id
                   hexdi_m hexdi_d
                   (create_param_dump _path_h5 hexdi_m hexdi_d) db1 with
    | (Raise e, db2) =>
        if is_Exception e
        then (Raise e, update mod_id {[ "error" := VInt 1 ]} db2)
        else (Raise e, db2)
    | (Ok results, db2) => (Ok results, db2)
    end.
Proof.
  unfold keras_backend.fit. by rewrite with_batch_size_lookup.
Qed.

Lemma update_inserted (db : database) (full sets : doc) :
  update (length (docs db)) sets (insert full db).2
  = {| docs := docs db ++ [sets ∪ full];
       oplog := oplog db ++ [Insert full; Update (length (docs db)) sets] |}.
Proof.
  unfold update, insert. simpl. f_equal.
  - rewrite <- (Nat.add_0_r (length (docs db))). by rewrite alter_app_r.
  - by rewrite <- app_assoc.
Qed.

(** Every run inserts first: the log of the run starts with the insert. *)
Lemma fit_inserts_first backend_name backend_version model data data_val args kwargs db :
  ∃ ops,
    oplog (fit backend_name backend_version model data data_val args kwargs db).2
    = oplog db
      ++ Insert (inserted backend_name backend_version model data kwargs) :: ops.
Proof.
  rewrite fit_unfold. cbv zeta.
  set (full := inserted _ _ _ _ _).
  unfold insert, keras_backend.training.
  destruct (train _ _ _ _ _ _) as [[r m]|e].
  - destruct (res_dict_of _ _ _) as [res|e].
    + destruct (save_weights _ _ _) as [[]|e]; simpl.
      * eexists. by rewrite <- app_assoc.
      * destruct (is_Exception e); simpl; eexists; by rewrite <- !app_assoc.
    + destruct (is_Exception e); simpl; eexists; [by rewrite <- !app_assoc | done].
  - destruct (is_Exception e); simpl; eexists; [by rewrite <- !app_assoc | done].
Qed.

(** *** The failure of train *)

(** C1, as the code has it: when [train] raises an instance of
    [Exception], [fit] re-raises it, and what it did to the collection is
    the insert followed by one update of the inserted document that sets
    'error' to 1; 'trained' is still 0.  The handler is [except
    Exception]: an exception outside that class passes with the document
    as it was inserted. *)
Theorem fit_marks_training_failure backend_name backend_version model
    data data_val args kwargs db (e : exn) :
  train K (model_arch model) data data_val args (with_batch_size kwargs) = Raise e →
  let full := inserted backend_name backend_version model data kwargs in
  (is_Exception e = true →
     fit backend_name backend_version model data data_val args kwargs db
     = (Raise e,
        {| docs := docs db ++ [<["error" := VInt 1]> full];
           oplog := oplog db
                    ++ [Insert full;
                        Update (length (docs db)) {[ "error" := VInt 1 ]}] |})
     ∧ (<["error" := VInt 1]> full) !! "trained" = Some (VInt 0))
  ∧ (is_Exception e = false →
     fit backend_name backend_version model data data_val args kwargs db
     = (Raise e,
        {| docs := docs db ++ [full]; oplog := oplog db ++ [Insert full] |})).
Proof.
  intros Htrain full. rewrite fit_unfold. cbv zeta. fold full.
  destruct (insert full db) as [mod_id db1] eqn:Hins.
  unfold keras_backend.training. rewrite Htrain.
  split; intros ->.
  - split; [| done].
    f_equal. injection Hins as <- <-.
    rewrite (update_inserted db full). by rewrite <- insert_union_singleton_l.
  - by injection Hins as <- <-.
Qed.

(** *** The default batch size *)

(** C9: without a [batch_size] keyword, or with [batch_size=None], [fit]
    goes on as if called with [batch_size=32]: the keyword arguments it
    passes on hold 32, the model hash is computed with 32 and the
    inserted document records 32.  A given value other than [None] is
    passed on, hashed and recorded as it is. *)
Theorem fit_batch_size backend_name backend_version model data data_val
    args kwargs db :
  let run := fit backend_name backend_version model data data_val args kwargs db in
  ((kwargs !! "batch_size" = None ∨ kwargs !! "batch_size" = Some VNone) →
     with_batch_size kwargs = <["batch_size" := VInt 32]> kwargs
     ∧ run = fit backend_name backend_version model data data_val args
               (<["batch_size" := VInt 32]> kwargs) db
     ∧ ∃ full ops,
         oplog run.2 = oplog db ++ Insert full :: ops
         ∧ full !! "batch_size" = Some (VInt 32)
         ∧ full !! "mod_id" = Some (VStr (create_model_hash model (VInt 32))))
  ∧ (∀ v, kwargs !! "batch_size" = Some v → v ≠ VNone →
     with_batch_size kwargs = kwargs
     ∧ ∃ full ops,
         oplog run.2 = oplog db ++ Insert full :: ops
         ∧ full !! "batch_size" = Some v
         ∧ full !! "mod_id" = Some (VStr (create_model_hash model v))).
Proof.
  intros run. split.
  - intros Hnone.
    assert (is_None (kwargs_get kwargs "batch_size") = true) as Hn.
    { unfold kwargs_get. by destruct Hnone as [-> | ->]. }
    assert (with_batch_size kwargs = <["batch_size" := VInt 32]> kwargs) as Hk.
    { unfold with_batch_size. by rewrite Hn. }
    assert (batch_size_of kwargs = VInt 32) as Hb.
    { unfold batch_size_of. by rewrite Hn. }
    split_and!; [done | |].
    + unfold run, keras_backend.fit. by rewrite with_batch_size_given, Hk.
    + destruct (fit_inserts_first backend_name backend_version model data
                  data_val args kwargs db) as [ops Hops].
      exists (inserted backend_name backend_version model data kwargs), ops.
      split; [done |]. unfold inserted. rewrite Hb. by split.
  - intros v Hv Hne.
    assert (is_None (kwargs_get kwargs "batch_size") = false) as Hn.
    { unfold kwargs_get. rewrite Hv. by destruct v. }
    assert (batch_size_of kwargs = v) as Hb.
    { unfold batch_size_of, kwargs_get in *. by rewrite Hn, Hv. }
    split.
    + unfold with_batch_size. by rewrite Hn.
    + destruct (fit_inserts_first backend_name backend_version model data
                  data_val args kwargs db) as [ops Hops].
      exists (inserted backend_name backend_version model data kwargs), ops.
      split; [done |]. unfold inserted. rewrite Hb. by split.
Qed.

(** *** What a successful run persists *)

Lemma fill_spec (items : list (string * value)) :
  NoDup items.*1 →
  ∀ res_dict res_dict' : doc,
    fill K items res_dict = Ok res_dict' →
    (∀ k, k ∉ items.*1 → res_dict' !! k = res_dict !! k)
    ∧ (∀ k v, (k, v) ∈ items → persisted k v res_dict').
Proof.
  induction items as [|[k0 v0] items IH]; intros Hnd r r' Hfill.
  - injection Hfill as <-. split; [done |]. intros k v Hin. by apply elem_of_nil in Hin.
  - apply NoDup_cons in Hnd as [Hk0 Hnd]. simpl in Hk0.
    unfold fill in Hfill. cbn [foldM] in Hfill. fold (fill K items) in Hfill.
    set (step := if decide (k0 ∈ ["loss"; "val_loss"]) then _ else _) in Hfill.
    destruct step as [r1|e] eqn:Hstep; [| done].
    cbn [mbind result_bind] in Hfill.
    destruct (IH Hnd r1 r' Hfill) as [Hout Hin].
    assert (persisted k0 v0 r1 ∧ ∀ k, k ≠ k0 → r1 !! k = r !! k) as [Hp Hother].
    { unfold step, persisted in *. destruct (decide (k0 ∈ ["loss"; "val_loss"])).
      - destruct (min_of K v0) as [m|e0] eqn:Hm; [| done].
        injection Hstep as <-. split.
        + exists m. by rewrite lookup_insert_eq.
        + intros k Hk. by rewrite !lookup_insert_ne.
      - injection Hstep as <-. split.
        + by rewrite lookup_insert_eq.
        + intros k Hk. by rewrite lookup_insert_ne. }
    split.
    + intros k Hk. cbn in Hk. apply not_elem_of_cons in Hk as [Hne Hk].
      rewrite Hout by done. by apply Hother.
    + intros k v Hkv. apply elem_of_cons in Hkv as [[= -> ->]|Hkv]; [| by apply Hin].
      unfold persisted in *. rewrite Hout by done.
      by destruct (decide (k0 ∈ ["loss"; "val_loss"])).
Qed.

Lemma res_dict_of_spec (r : results) (res_dict : doc) :
  res_dict_of K finished r = Ok res_dict →
  ∀ metric v, r_metrics r !! metric = Some v → persisted metric v res_dict.
Proof.
  unfold res_dict_of. destruct (r_metrics r !! "iter") as [iter|]; [| done].
  cbn [from_option mbind result_bind]. intros Hfill metric v Hv.
  eapply fill_spec; [apply NoDup_fst_map_to_list | exact Hfill |].
  by apply elem_of_map_to_list.
Qed.

Lemma persisted_union (metric : string) (v : value) (res_dict full : doc) :
  persisted metric v res_dict → persisted metric v (res_dict ∪ full).
Proof.
  unfold persisted. destruct (decide _).
  - intros (m & Hm & Hl). exists m. split; [done |]. by apply lookup_union_Some_l.
  - intros Hl. by apply lookup_union_Some_l.
Qed.

(** C4, as the code has it: every run starts by inserting a document
    that holds the model hash, the data hash and the path of the weights.
    When the run returns, the document has been updated once, with a dict
    that holds, for every entry of the metrics [train] accumulated, the
    entry itself, except under 'loss' and 'val_loss', where it holds
    the minimum of the history instead of the history. *)
Theorem fit_persists_metrics backend_name backend_version model
    data data_val args kwargs db :
  let run := fit backend_name backend_version model data data_val args kwargs db in
  let full := inserted backend_name backend_version model data kwargs in
  let hexdi_m := create_model_hash model (batch_size_of kwargs) in
  let hexdi_d := create_data_hash data in
  (∃ ops, oplog run.2 = oplog db ++ Insert full :: ops)
  ∧ full !! "mod_id" = Some (VStr hexdi_m)
  ∧ full !! "data_id" = Some (VStr hexdi_d)
  ∧ full !! "params_dump" = Some (VStr (create_param_dump _path_h5 hexdi_m hexdi_d))
  ∧ (∀ r, run.1 = Ok r →
       ∃ r0 model_k res_dict,
         train K (model_arch model) data data_val args (with_batch_size kwargs)
         = Ok (r0, model_k)
         ∧ r_metrics r = r_metrics r0
         ∧ run.2 = {| docs := docs db ++ [res_dict ∪ full];
                      oplog := oplog db
                               ++ [Insert full; Update (length (docs db)) res_dict] |}
         ∧ ∀ metric v, r_metrics r0 !! metric = Some v →
             persisted metric v (res_dict ∪ full)).
Proof.
  intros run full hexdi_m hexdi_d. split_and!; [apply fit_inserts_first | done..|].
  intros r. unfold run. rewrite fit_unfold. cbv zeta. fold full hexdi_m hexdi_d.
  destruct (insert full db) as [mod_id db1] eqn:Hins.
  unfold keras_backend.training.
  destruct (train _ _ _ _ _ _) as [[r0 model_k]|e] eqn:Htrain;
    [| by destruct (is_Exception e)].
  destruct (res_dict_of _ _ _) as [res_dict|e] eqn:Hres;
    [| by destruct (is_Exception e)].
  destruct (save_weights _ _ _) as [[]|e]; [| by destruct (is_Exception e)].
  simpl. intros [= <-]. exists r0, model_k, res_dict.
  split_and!; [done | done | |].
  - injection Hins as <- <-. apply update_inserted.
  - intros metric v Hv. apply persisted_union. by eapply res_dict_of_spec.
Qed.

(** *** The dispatch on the class name *)

Lemma arrange_unsupported (model_name : option string) (model_k : kmodel)
    (data : @pdata tensor) :
  model_name ∉ supported →
  arrange K model_name model_k data
  = Raise (NotImplementedError (unsupported_message model_name)).
Proof.
  unfold supported. rewrite !not_elem_of_cons. intros (H1 & H2 & H3 & _).
  unfold arrange. by rewrite !decide_False.
Qed.

(** With a supported name the only failure of the dispatch is that of
    reading the inputs of a dict by name. *)
Lemma arrange_supported (model_name : option string) (model_k : kmodel)
    (data : @pdata tensor) (e : exn) :
  model_name ∈ supported →
  arrange K model_name model_k data = Raise e →
  ∃ named, data = PDict named ∧ by_input_names K model_k named = Raise e.
Proof.
  unfold supported. rewrite !elem_of_cons, elem_of_nil.
  intros [-> | [-> | [-> | []]]]; unfold arrange; simpl.
  - destruct data as [a|items|named]; simpl; try done.
    destruct (by_input_names K model_k named) eqn:E; simpl; [done |].
    intros [= ->]. by exists named.
  - done.
  - destruct data as [a|items|named]; simpl; try done.
    intros He. by exists named.
Qed.

Lemma predict_cached model data args kwargs st (c : compiled) :
  COMPILED_MODELS st !! mod_id model = Some c →
  predict K model data args kwargs st
  = (data ← arrange K (class_name (config (model_arch model))) (keras_backend.model c) data;
     call K (pred c) data, st).
Proof.
  intros Hc. unfold predict, compiled_for. by rewrite Hc.
Qed.

Lemma predict_missing model data args kwargs st :
  COMPILED_MODELS st !! mod_id model = None →
  predict K model data args kwargs st
  = let '(loaded, st') := compile_model K model (kwargs_get kwargs "custom_objects") st in
    ('(pred_function, model_k, model_name) ← loaded;
     data ← arrange K model_name model_k data;
     call K pred_function data, st').
Proof.
  intros Hc. unfold predict, compiled_for. by rewrite Hc.
Qed.

(** What [compile_model] returns as the name is the class name the dict
    holds. *)
Lemma compile_model_name model custom_objects st pred_function model_k model_name st' :
  compile_model K model custom_objects st = (Ok (pred_function, model_k, model_name), st') →
  model_name = class_name (config (model_arch model)).
Proof.
  unfold compile_model, pop_optimizer.
  destruct (optimizer (model_arch model)); [| done]. simpl.
  destruct (model_from_dict_w_opt _ _ _); [| done].
  destruct (load_weights _ _ _); [| done].
  destruct (build_predict_func _ _); [| done].
  by intros [= _ _ <- _].
Qed.

(** The custom objects [train] takes out of its keyword arguments. *)
Lemma train_unfold model_arch data data_val args kwargs :
  train K model_arch data data_val args kwargs
  = (model ← model_from_dict_w_opt K model_arch (kwargs_get kwargs "custom_objects");
     names ← metrics_names K model;
     let metrics :=
       foldl (λ metrics metric,
                <["val_" +:+ metric := VNums []]> (<[metric := VNums []]> metrics))
             (∅ : gmap string value) names in
     let kwargs := delete "custom_objects" kwargs in
     if is_literal (class_of K model) "Graph" then
       st ← fit_batches K names graph_input args kwargs (zip data data_val)
              (metrics, model, None);
       finish data st
     else if is_literal (class_of K model) "Sequential"
             || is_literal (class_of K model) "Model" then
       st ← fit_batches K names xy_input args kwargs (zip data data_val)
              (metrics, model, None);
       finish data st
     else Raise (NotImplementedError
                   ("This type of modelis not supported: "
                    +:+ text (class_of K model)))).
Proof.
  unfold train, kwargs_get.
  destruct (kwargs !! "custom_objects") as [objs|] eqn:E; simpl; [done |].
  by rewrite delete_id.
Qed.

Lemma is_literal_text (a : pystr) (lit : string) :
  is_literal a lit = true → text a = lit.
Proof.
  unfold is_literal. intros [_ H]%andb_true_iff. by apply bool_decide_eq_true in H.
Qed.

(** C2, as the code has it.  [predict] reaches its dispatch when the
    model is in the mapping, or when the rebuild of a model that is not
    went through; there a class name other than 'Graph', 'Sequential'
    and 'Model' raises [NotImplementedError] with the name in the
    message, and one of the three never does.  A failure of the rebuild
    (a model without 'optimizer' entry among them) is raised instead.
    [train] rebuilds the model and reads its [metrics_names] before it
    looks at the class: a failure of either is raised as it is, and once
    both returned a class that is none of the three raises
    [NotImplementedError]. *)
Theorem unsupported_model_type model data args kwargs st :
  let model_name := class_name (config (model_arch model)) in
  let custom_objects := kwargs_get kwargs "custom_objects" in
  let run := predict K model data args kwargs st in
  (model_name ∉ supported →
     (is_Some (COMPILED_MODELS st !! mod_id model)
      ∨ returns (compile_model K model custom_objects st).1) →
     run.1 = Raise (NotImplementedError (unsupported_message model_name)))
  ∧ (∀ e, COMPILED_MODELS st !! mod_id model = None →
       (compile_model K model custom_objects st).1 = Raise e →
       run.1 = Raise e)
  ∧ (model_name ∈ supported →
     ∀ model_k e, arrange K model_name model_k data = Raise e →
       ∃ named, data = PDict named ∧ by_input_names K model_k named = Raise e)
  ∧ (∀ data data_val,
       let rebuilt := model_from_dict_w_opt K (model_arch model) custom_objects in
       let trained := train K (model_arch model) data data_val args kwargs in
       (∀ e, rebuilt = Raise e → trained = Raise e)
       ∧ (∀ model_k e,
            rebuilt = Ok model_k → metrics_names K model_k = Raise e →
            trained = Raise e)
       ∧ (∀ model_k names,
            rebuilt = Ok model_k → metrics_names K model_k = Ok names →
            text (class_of K model_k) ∉ ["Graph"; "Sequential"; "Model"] →
            trained
            = Raise (NotImplementedError
                       ("This type of modelis not supported: "
                        +:+ text (class_of K model_k))))).
Proof.
  intros model_name custom_objects run. split_and!.
  - intros Hname Hreach. unfold run.
    destruct (COMPILED_MODELS st !! mod_id model) as [c|] eqn:Hc.
    + rewrite (predict_cached _ _ _ _ _ c Hc). simpl.
      fold model_name. by rewrite arrange_unsupported.
    + destruct Hreach as [[? [=]] | [[[f m] n] Hok]].
      rewrite predict_missing by done. fold custom_objects.
      destruct (compile_model K model custom_objects st) as [loaded st'] eqn:Hcm.
      simpl in Hok. subst loaded. simpl.
      apply compile_model_name in Hcm as ->. fold model_name.
      by rewrite arrange_unsupported.
  - intros e Hc He. unfold run. rewrite predict_missing by done.
    fold custom_objects.
    destruct (compile_model K model custom_objects st) as [loaded st'].
    simpl in He. by subst loaded.
  - intros Hname model_k e. by apply arrange_supported.
  - intros data' data_val rebuilt trained. unfold rebuilt, trained.
    rewrite train_unfold. fold custom_objects. split_and!.
    { by intros e ->. }
    { intros model_k e -> Hn. simpl. by rewrite Hn. }
    intros model_k names -> Hn Hclass. simpl. rewrite Hn. simpl.
    rewrite !not_elem_of_cons in Hclass. destruct Hclass as (H1 & H2 & H3 & _).
    destruct (is_literal (class_of K model_k) "Graph") eqn:E1;
      [by apply is_literal_text in E1 |].
    destruct (is_literal (class_of K model_k) "Sequential") eqn:E2;
      [by apply is_literal_text in E2 |].
    destruct (is_literal (class_of K model_k) "Model") eqn:E3;
      [by apply is_literal_text in E3 |].
    done.
Qed.

(** *** The mapping of compiled models *)



(** *** More on predict *)

(** X11: the branches for 'Graph' and for 'Model' arrange every input alike.
    The branch for 'Sequential' differs on a dict only: it passes the dict
    as the one element of the list, and does not read it by input name. *)
Theorem arrange_graph_like_model (model_k : kmodel) (data : @pdata tensor) :
  arrange K (Some "Graph") model_k data = arrange K (Some "Model") model_k data
  ∧ match data with
    | PDict named => arrange K (Some "Sequential") model_k data = Ok [data]
    | _ => arrange K (Some "Sequential") model_k data
           = arrange K (Some "Model") model_k data
    end.
Proof.
  unfold arrange. destruct data as [a|items|named]; simpl; try done.
  split; [| done]. by destruct (by_input_names K model_k named).
Qed.

Lemma mapM_raises {A B} (f : A → result B) (good : list A) (x : A)
    (rest : list A) (e : exn) :
  (∀ g, g ∈ good → returns (f g)) → f x = Raise e →
  mapM f (good ++ x :: rest) = Raise e.
Proof.
  intros Hgood Hx. induction good as [|g good IH]; simpl.
  - by rewrite Hx.
  - destruct (Hgood g) as [y ->]; [left |]. simpl.
    rewrite IH; [done |]. intros g' Hg'. apply Hgood. by right.
Qed.

Lemma mapM_returns {A B} (f : A → result B) (g : A → B) (l : list A) :
  (∀ x, x ∈ l → f x = Ok (g x)) → mapM f l = Ok (g <$> l).
Proof.
  intros Hl. induction l as [|x l IH]; [done |]. simpl.
  rewrite Hl by left. simpl. rewrite IH; [done |].
  intros y Hy. apply Hl. by right.
Qed.

(** X12: a dict given to a 'Model' is read by input name, in the order of the
    names: entries under other names are left out, and the first input
    name the dict lacks is raised as a [KeyError]. *)
Theorem arrange_by_input_names (model_k : kmodel)
    (named : gmap string (@pdata tensor)) (names : list string) :
  input_names K model_k = Ok names →
  (∀ good n rest,
     names = good ++ n :: rest →
     (∀ g, g ∈ good → is_Some (named !! g)) → named !! n = None →
     arrange K (Some "Model") model_k (PDict named) = Raise (KeyError n))
  ∧ ((∀ n, n ∈ names → is_Some (named !! n)) →
     ∃ items,
       arrange K (Some "Model") model_k (PDict named) = Ok items
       ∧ length items = length names
       ∧ ∀ i n, names !! i = Some n → Some <$> items !! i = Some (named !! n)).
Proof.
  intros Hnames. unfold arrange. simpl. unfold by_input_names. rewrite Hnames.
  cbn [mbind result_bind]. split.
  - intros good n rest -> Hgood Hn. apply mapM_raises.
    + intros g Hg. destruct (Hgood g Hg) as [x ->]. by eexists.
    + by rewrite Hn.
  - intros Hall.
    rewrite (mapM_returns _ (λ n, default (PList []) (named !! n))).
    + eexists. split; [done |]. split; [by rewrite length_fmap |].
      intros i n Hi. rewrite list_lookup_fmap, Hi. simpl.
      destruct (Hall n) as [x ->]; [| done]. by eapply list_elem_of_lookup_2.
    + intros n Hn. by destruct (Hall n Hn) as [x ->].
Qed.

(** X13: [predict] never compiles the model it rebuilds: it takes the
    optimizer out of the dict first, so that no compilation and no
    optimizer lookup of the library has a part in its outcome. *)
Theorem predict_never_compiles compile' optimizers_get' model data args kwargs st :
  predict (compiling K compile' optimizers_get') model data args kwargs st
  = predict K model data args kwargs st.
Proof.
  unfold predict. destruct (compiled_for st (mod_id model)) as [[f m]|]; [done |].
  unfold compile_model, pop_optimizer.
  by destruct (optimizer (model_arch model)).
Qed.

(** X14: the mapping is keyed by the id alone.  Once a call has stored a model
    under an id, a call for another dict with the same id changes
    nothing and runs the stored function on the stored model: the new
    architecture is read for its class name only, and the new weights
    file is not read. *)
Theorem predict_keyed_by_id model model' data data' args args' kwargs kwargs' st
    model_dict model_k model_k' pred_function :
  COMPILED_MODELS st !! mod_id model = None →
  pop_optimizer (model_arch model) = Ok model_dict →
  model_from_dict_w_opt K model_dict (kwargs_get kwargs "custom_objects") = Ok model_k →
  load_weights K model_k (params_dump model) = Ok model_k' →
  build_predict_func K model_k' = Ok pred_function →
  mod_id model' = mod_id model →
  let st1 := (predict K model data args kwargs st).2 in
  predict K model' data' args' kwargs' st1
  = (data ← arrange K (class_name (config (model_arch model'))) model_k' data';
     call K pred_function data, st1).
Proof.
  intros Hc Hpop Hm Hw Hf Hid st1.
  assert (COMPILED_MODELS st1 !! mod_id model'
          = Some {| pred := pred_function; model := model_k' |}) as Hst1.
  { unfold st1. rewrite predict_missing by done. unfold compile_model.
    rewrite Hpop, Hm, Hw, Hf. simpl. by rewrite Hid, lookup_insert_eq. }
  by rewrite (predict_cached _ _ _ _ _ _ Hst1).
Qed.

(** *** More on the rebuild *)


(** *** More on train *)



(** **** The validation histories *)

Lemma extend_Ok (metrics metrics' : gmap string value) key rhs :
  extend metrics key rhs = Ok metrics' →
  ∃ l xs, metrics !! key = Some (VNums l) ∧ rhs = Ok xs
          ∧ metrics' = <[key := VNums (l ++ xs)]> metrics.
Proof.
  unfold extend. destruct (metrics !! key) as [target|]; [| done].
  destruct rhs as [xs|]; [| done]. simpl.
  destruct target; try done. intros [= <-]. by eexists _, _.
Qed.

Lemma initial_metrics (names : list string) (acc : gmap string value) :
  let metrics :=
    foldl (λ metrics metric,
             <["val_" +:+ metric := VNums []]> (<[metric := VNums []]> metrics))
          acc names in
  (∀ k v, acc !! k = Some v → v = VNums []) →
  (∀ k v, metrics !! k = Some v → v = VNums [])
  ∧ (∀ k, is_Some (acc !! k) → is_Some (metrics !! k))
  ∧ (∀ n, n ∈ names →
       is_Some (metrics !! n) ∧ is_Some (metrics !! ("val_" +:+ n))).
Proof.
  clear create_model_hash create_data_hash create_param_dump _path_h5
        started finished.
  revert acc. induction names as [|m names IH]; intros acc metrics Hacc.
  - split_and!; [done | done | by intros ? ?%elem_of_nil].
  - subst metrics. simpl.
    set (acc' := <["val_" +:+ m := VNums []]> (<[m := VNums []]> acc)).
    assert (∀ k, is_Some (acc !! k) → is_Some (acc' !! k)) as Hgrow.
    { intros k Hk. unfold acc'. rewrite !lookup_insert. by repeat case_decide. }
    destruct (IH acc') as (Hall & Hkeep & Hnames).
    { intros k v. unfold acc'. rewrite !lookup_insert.
      repeat case_decide; [by intros [= <-].. | apply Hacc]. }
    split_and!; [done | by intros k Hk; apply Hkeep, Hgrow |].
    intros n [->|Hn]%elem_of_cons; [| by apply Hnames].
    split; apply Hkeep; unfold acc'; rewrite !lookup_insert;
      by repeat case_decide.
Qed.

Lemma initial_mirrored (names : list string) :
  mirrored names
    (foldl (λ metrics metric,
              <["val_" +:+ metric := VNums []]> (<[metric := VNums []]> metrics))
           (∅ : gmap string value) names).
Proof.
  clear create_model_hash create_data_hash create_param_dump _path_h5
        started finished.
  destruct (initial_metrics names ∅) as (Hall & _ & Hnames); [done |].
  intros n Hn. destruct (Hnames n Hn) as [[v Hv] [v' Hv']].
  rewrite Hv, Hv'. by rewrite (Hall _ _ Hv), (Hall _ _ Hv').
Qed.

Lemma record_history_mirrored (names names' : list string) (h : History)
    (metrics metrics' : gmap string value) :
  (∀ n n', n ∈ names → n' ∈ names → n' ≠ "val_" +:+ n) →
  names' ⊆ names →
  mirrored names metrics →
  record_history names' h metrics = Ok metrics' →
  mirrored names metrics'.
Proof.
  clear create_model_hash create_data_hash create_param_dump _path_h5
        started finished.
  intros Hplain. revert metrics.
  induction names' as [|m names' IH]; intros metrics Hsub Hinv Hrec.
  - by injection Hrec as <-.
  - unfold record_history in Hrec. cbn [foldM] in Hrec.
    fold (record_history names' h) in Hrec.
    destruct (extend metrics m (history_get h m)) as [ma|] eqn:Ha; [| done].
    cbn [mbind result_bind] in Hrec.
    destruct (extend ma ("val_" +:+ m) (history_get h m)) as [mb|] eqn:Hb; [| done].
    cbn [mbind result_bind] in Hrec.
    assert (m ∈ names) as Hm by (apply Hsub; left).
    apply (IH mb); [set_solver | | done].
    apply extend_Ok in Ha as (l & xs & Hl & Hxs & ->).
    apply extend_Ok in Hb as (l' & xs' & Hl' & Hxs' & ->).
    rewrite Hxs in Hxs'. injection Hxs' as <-.
    assert (m ≠ "val_" +:+ m) as Hmm by (by apply Hplain).
    rewrite lookup_insert_ne in Hl' by done.
    rewrite (Hinv m Hm), Hl in Hl'. injection Hl' as <-.
    intros n Hn. destruct (decide (n = m)) as [->|Hne].
    + rewrite lookup_insert_eq, lookup_insert_ne by done.
      by rewrite lookup_insert_eq.
    + assert ("val_" +:+ n ≠ "val_" +:+ m) as H1.
      { intros H. by apply (inj (String.app "val_")) in H. }
      assert (m ≠ "val_" +:+ n) as H2 by (by apply Hplain).
      assert (n ≠ "val_" +:+ m) as H3 by (by apply Hplain).
      rewrite !(lookup_insert_ne _ _ ("val_" +:+ n)) by done.
      rewrite !(lookup_insert_ne _ _ n) by done. by apply Hinv.
Qed.

Lemma fit_batches_mirrored (names : list string) input args kwargs
    (batches : list (batch * batch))
    (st st' : gmap string value * kmodel * option (@History scalar)) :
  (∀ n n', n ∈ names → n' ∈ names → n' ≠ "val_" +:+ n) →
  mirrored names st.1.1 →
  fit_batches K names input args kwargs batches st = Ok st' →
  mirrored names st'.1.1.
Proof.
  clear create_model_hash create_data_hash create_param_dump _path_h5
        started finished.
  intros Hplain. revert st.
  induction batches as [|[d dv] batches IH]; intros [[metrics model_k] h] Hinv Hfit.
  - by injection Hfit as <-.
  - unfold fit_batches in Hfit. cbn [foldM] in Hfit.
    fold (fit_batches K names input args kwargs batches) in Hfit.
    destruct (input d dv) as [inp|]; [| done]. cbn [mbind result_bind] in Hfit.
    destruct (model_fit K model_k inp args kwargs) as [[h' model_k']|]; [| done].
    cbn [mbind result_bind] in Hfit.
    destruct (record_history names h' metrics) as [metrics'|] eqn:Hrec; [| done].
    cbn [mbind result_bind] in Hfit.
    apply (IH (metrics', model_k', Some h')); [| exact Hfit].
    exact (record_history_mirrored names names h' metrics metrics'
             Hplain (reflexivity _) Hinv Hrec).
Qed.

Lemma finish_mirrored (names : list string) (data : list batch)
    (st : gmap string value * kmodel * option (@History scalar))
    (r : results) (model_k : kmodel) :
  "iter" ∉ names →
  mirrored names st.1.1 →
  finish data st = Ok (r, model_k) →
  mirrored names (r_metrics r).
Proof.
  clear create_model_hash create_data_hash create_param_dump _path_h5
        started finished.
  intros Hiter Hinv. destruct st as [[metrics m] [h|]]; [| done].
  unfold finish. simpl. destruct (list_index (epoch h) (-1)); [| done]. simpl.
  intros [= <- _]. cbn [r_metrics]. intros n Hn.
  rewrite (lookup_insert_ne _ "iter" ("val_" +:+ n)) by (intros H; cbn in H; done).
  rewrite (lookup_insert_ne _ "iter" n) by (by intros <-).
  by apply Hinv.
Qed.

Lemma train_mirrored (model_arch : arch) (data data_val : list batch)
    args kwargs (model_k model_k' : kmodel) (names : list string) (r : results) :
  model_from_dict_w_opt K model_arch (kwargs_get kwargs "custom_objects") = Ok model_k →
  metrics_names K model_k = Ok names →
  plain_names names →
  train K model_arch data data_val args kwargs = Ok (r, model_k') →
  mirrored names (r_metrics r).
Proof.
  clear create_model_hash create_data_hash create_param_dump _path_h5
        started finished.
  intros Hm Hn [Hiter Hplain]. rewrite train_unfold, Hm. simpl. rewrite Hn. simpl.
  pose proof (initial_mirrored names) as Hinit.
  destruct (is_literal (class_of K model_k) "Graph").
  - destruct (fit_batches K names graph_input _ _ _ _) as [st|] eqn:Hfit; [| done].
    simpl. intros Hfin.
    eapply finish_mirrored; [done | | exact Hfin].
    by eapply (fit_batches_mirrored names graph_input) in Hfit.
  - destruct (_ || _); [| done].
    destruct (fit_batches K names xy_input _ _ _ _) as [st|] eqn:Hfit; [| done].
    simpl. intros Hfin.
    eapply finish_mirrored; [done | | exact Hfin].
    by eapply (fit_batches_mirrored names xy_input) in Hfit.
Qed.

(** X17: [train] never records a validation history.  When no metric is
    called 'iter' or 'val_' followed by the name of a metric, the entry
    it returns under 'val_' and the name of a metric is the entry under
    the name itself, the training history. *)
Theorem train_validation_history (model_arch : arch) (data data_val : list batch)
    args kwargs (model_k model_k' : kmodel) (names : list string) (r : results) :
  model_from_dict_w_opt K model_arch (kwargs_get kwargs "custom_objects") = Ok model_k →
  metrics_names K model_k = Ok names →
  plain_names names →
  train K model_arch data data_val args kwargs = Ok (r, model_k') →
  ∀ n, n ∈ names → r_metrics r !! ("val_" +:+ n) = r_metrics r !! n.
Proof.
  clear create_model_hash create_data_hash create_param_dump _path_h5
        started finished.
  intros Hm Hn Hplain Htrain n Hin.
  pose proof (train_mirrored _ _ _ _ _ _ _ _ _ Hm Hn Hplain Htrain) as Hmir.
  by apply Hmir.
Qed.

(** *** More on fit *)

Lemma update_last (docs0 : list doc) (x sets : doc) (ops : list db_op) :
  update (length docs0) sets {| docs := docs0 ++ [x]; oplog := ops |}
  = {| docs := docs0 ++ [sets ∪ x];
       oplog := ops ++ [Update (length docs0) sets] |}.
Proof.
  unfold update. simpl. f_equal.
  rewrite <- (Nat.add_0_r (length docs0)). by rewrite alter_app_r.
Qed.

Lemma union_keeps_keys (sets x : doc) (k : string) :
  is_Some (x !! k) → is_Some ((sets ∪ x) !! k).
Proof.
  intros [v Hv]. rewrite lookup_union, Hv. by destruct (sets !! k).
Qed.

(** X18: whatever happens in it, a run of [fit] adds one document at the end
    of the collection and leaves the documents that were there as they
    were; the document it leaves has every field of the one it
    inserted. *)
Theorem fit_appends_one backend_name backend_version model data data_val
    args kwargs db :
  ∃ d,
    docs (fit backend_name backend_version model data data_val args kwargs db).2
    = docs db ++ [d]
    ∧ ∀ k, is_Some (inserted backend_name backend_version model data kwargs !! k) →
           is_Some (d !! k).
Proof.
  rewrite fit_unfold. cbv zeta.
  set (full := inserted backend_name backend_version model data kwargs).
  unfold insert, keras_backend.training.
  destruct (train _ _ _ _ _ _) as [[r m]|e].
  - destruct (res_dict_of _ _ _) as [res|e].
    + rewrite update_last.
      destruct (save_weights _ _ _) as [[]|e].
      * eexists. split; [done |]. intros k. apply union_keeps_keys.
      * destruct (is_Exception e); [rewrite update_last |];
          (eexists; split; [done |]); intros k Hk;
          repeat apply union_keeps_keys; done.
    + destruct (is_Exception e); [rewrite update_last |];
        (eexists; split; [done |]); intros k Hk;
        repeat apply union_keeps_keys; done.
  - destruct (is_Exception e); [rewrite update_last |];
      (eexists; split; [done |]); intros k Hk;
      repeat apply union_keeps_keys; done.
Qed.

Lemma res_dict_keeps (r : results) (res_dict : doc) (k : string) :
  res_dict_of K finished r = Ok res_dict →
  r_metrics r !! k = None →
  res_dict !! k
  = (list_to_map [("iter_stopped", default VNone (r_metrics r !! "iter"));
                  ("trained", VInt 1);
                  ("date_finished_training", VDate finished)] : doc) !! k.
Proof.
  unfold res_dict_of. destruct (r_metrics r !! "iter") as [iter|]; [| done].
  cbn [from_option mbind result_bind]. intros Hfill Hk.
  eapply fill_spec; [apply NoDup_fst_map_to_list | exact Hfill |].
  intros ([k' v] & Hk' & Hin)%list_elem_of_fmap. simpl in Hk'. subst k'.
  apply elem_of_map_to_list in Hin. congruence.
Qed.

(** X19: when the weights cannot be saved, the run has already stored its
    results: the exception is re-raised, and the document is left
    updated twice, with the results and then with 'error' set to 1.
    Unless a metric goes by one of these names, it reads both trained
    (1) and in error (1). *)
Theorem fit_save_failure backend_name backend_version model data data_val
    args kwargs db (r0 : results) (model_k : kmodel) (res_dict : doc) (e : exn) :
  let full := inserted backend_name backend_version model data kwargs in
  let hexdi_m := create_model_hash model (batch_size_of kwargs) in
  let hexdi_d := create_data_hash data in
  train K (model_arch model) data data_val args (with_batch_size kwargs)
  = Ok (r0, model_k) →
  res_dict_of K finished r0 = Ok res_dict →
  save_weights K model_k (create_param_dump _path_h5 hexdi_m hexdi_d) = Raise e →
  is_Exception e = true →
  fit backend_name backend_version model data data_val args kwargs db
  = (Raise e,
     {| docs := docs db ++ [<["error" := VInt 1]> (res_dict ∪ full)];
        oplog := oplog db
                 ++ [Insert full; Update (length (docs db)) res_dict;
                     Update (length (docs db)) {[ "error" := VInt 1 ]}] |})
  ∧ (r_metrics r0 !! "trained" = None →
     (<["error" := VInt 1]> (res_dict ∪ full)) !! "trained" = Some (VInt 1)).
Proof.
  intros full hexdi_m hexdi_d Htrain Hres Hsave He. split.
  - rewrite fit_unfold. cbv zeta. fold full hexdi_m hexdi_d.
    unfold insert, keras_backend.training.
    rewrite Htrain, Hres, Hsave, He, !update_last.
    rewrite <- insert_union_singleton_l. by rewrite <- !app_assoc.
  - intros Hk. rewrite lookup_insert_ne by done.
    apply lookup_union_Some_l. by rewrite (res_dict_keeps r0 res_dict "trained").
Qed.

(** X22: the validation loss a run stores is its training loss.  When
    'loss' is a metric of the rebuilt model (and no metric is called
    'iter' or 'val_' followed by the name of a metric), the document of
    a run that returns holds the same value under 'val_loss' and under
    'loss'. *)
Theorem fit_val_loss_is_loss backend_name backend_version model data data_val
    args kwargs db (model_k : kmodel) (names : list string) (r : results) db' :
  model_from_dict_w_opt K (model_arch model)
    (kwargs_get (with_batch_size kwargs) "custom_objects") = Ok model_k →
  metrics_names K model_k = Ok names →
  plain_names names →
  "loss" ∈ names →
  fit backend_name backend_version model data data_val args kwargs db = (Ok r, db') →
  ∃ d, docs db' = docs db ++ [d] ∧ d !! "val_loss" = d !! "loss".
Proof.
  intros Hm Hn Hplain Hloss. rewrite fit_unfold. cbv zeta.
  set (full := inserted backend_name backend_version model data kwargs).
  unfold insert, keras_backend.training.
  destruct (train _ _ _ _ _ _) as [[r0 model_k']|e] eqn:Htrain;
    [| by destruct (is_Exception e)].
  destruct (res_dict_of _ _ _) as [res_dict|e] eqn:Hres;
    [| by destruct (is_Exception e)].
  rewrite update_last.
  destruct (save_weights _ _ _) as [[]|e]; [| by destruct (is_Exception e)].
  intros [= _ <-]. exists (res_dict ∪ full). split; [done |].
  pose proof (train_mirrored _ _ _ _ _ _ _ _ _ Hm Hn Hplain Htrain
                "loss" Hloss) as Hval.
  change ("val_" +:+ "loss") with "val_loss" in Hval.
  destruct (r_metrics r0 !! "loss") as [v|] eqn:Hv.
  - pose proof (res_dict_of_spec r0 res_dict Hres "loss" v Hv) as H1.
    pose proof (res_dict_of_spec r0 res_dict Hres "val_loss" v Hval) as H2.
    unfold keras_backend.persisted in H1, H2.
    rewrite decide_True in H1 by (rewrite !elem_of_cons; by left).
    rewrite decide_True in H2 by (rewrite !elem_of_cons; by right; left).
    destruct H1 as (m1 & Hm1 & Hl1). destruct H2 as (m2 & Hm2 & Hl2).
    rewrite Hm1 in Hm2. injection Hm2 as <-.
    by rewrite (lookup_union_Some_l _ _ _ _ Hl1), (lookup_union_Some_l _ _ _ _ Hl2).
  - rewrite !lookup_union.
    rewrite (res_dict_keeps r0 res_dict "loss" Hres Hv).
    by rewrite (res_dict_keeps r0 res_dict "val_loss" Hres Hval).
Qed.

(** *** Serialized models *)

(** X20: a model that has no optimizer is serialized without 'optimizer'
    entry, and [predict] cannot rebuild it: the call raises
    [KeyError] and the mapping is left as it was. *)
Theorem predict_not_compiled (model : keras_model) (metrics : option json)
    (model_arch : arch) (id path : string) data args kwargs st :
  m_optimizer model = None →
  to_dict_w_opt model metrics = Ok model_arch →
  COMPILED_MODELS st !! id = None →
  predict K {| mod_id := id; model_arch := model_arch; params_dump := path |}
          data args kwargs st
  = (Raise (KeyError "optimizer"), st).
Proof.
  intros Hopt Hser Hc.
  assert (optimizer model_arch = None) as Hnone.
  { unfold to_dict_w_opt in Hser. rewrite Hopt in Hser.
    destruct (m_get_config model); [| done]. simpl in Hser.
    destruct (match m_loss model with Some _ => _ | None => _ end); [| done].
    by injection Hser as <-. }
  rewrite predict_missing by done.
  unfold compile_model, pop_optimizer. simpl. by rewrite Hnone.
Qed.

End with_keras.

(** X21: a model compiled with one loss, a function or a name, is serialized
    with that loss under its first output only. *)
Theorem single_loss_first_output (model : keras_model) (metrics : option json)
    (o : pyobject) (name first : string) (rest : list string) (model_arch : arch) :
  m_loss model = Some (LossObject o) →
  get_function_name o = Ok name →
  m_output_layers model = Ok (first :: rest) →
  to_dict_w_opt model metrics = Ok model_arch →
  loss model_arch = Some {[ first := name ]}.
Proof.
  intros Hloss Hname Hout. unfold to_dict_w_opt. rewrite Hloss, Hout.
  destruct (m_get_config model); [| done]. simpl.
  destruct (match m_optimizer model with Some _ => _ | None => _ end); [| done].
  simpl. destruct o; simpl in *; try done;
    injection Hname as ->; intros [= <-]; cbn; unfold dict_of;
    destruct rest; cbn; by rewrite insert_empty.
Qed.

(** *** The statements at work *)

Import instances.

Lemma fit_marks_training_failure_witness :
  toy_fit (Ok three_epochs) (a_model "Dense" sgd) ∅
  = (Raise (NotImplementedError "This type of modelis not supported: Dense"),
     {| docs := [<["error" := VInt 1]> (toy_inserted (a_model "Dense" sgd) ∅)];
        oplog := [Insert (toy_inserted (a_model "Dense" sgd) ∅);
                  Update 0 {[ "error" := VInt 1 ]}] |}).
Proof.
  refine (proj1 (proj1 (fit_marks_training_failure (toy (Ok three_epochs))
            (λ m _, mod_id m) (λ _, "d0") (λ p m d, p +:+ m +:+ d)
            "/parameters_h5/" 10 20 "keras" (VStr "1.0.8") (a_model "Dense" sgd)
            [a_batch] [a_batch] [] ∅ empty_db
            (NotImplementedError "This type of modelis not supported: Dense")
            _) _)).
  - vm_compute. reflexivity.
  - reflexivity.
Defined.

(** C1 as worded fails for an exception that is not an [Exception]: an
    interrupt raised in [model.fit] leaves [fit] without an update, and
    the document has no 'error' field. *)
Lemma fit_interrupted_unmarked :
  ∃ db,
    toy_fit (Raise KeyboardInterrupt) (a_model "Sequential" sgd) ∅
    = (Raise KeyboardInterrupt, db)
    ∧ oplog db = [Insert (toy_inserted (a_model "Sequential" sgd) ∅)]
    ∧ docs db = [toy_inserted (a_model "Sequential" sgd) ∅]
    ∧ toy_inserted (a_model "Sequential" sgd) ∅ !! "error" = None.
Proof. eexists. split_and!; by vm_compute. Qed.

Lemma fit_batch_size_witness :
  with_batch_size (∅ : gmap string (@value Z)) = <["batch_size" := VInt 32]> ∅
  ∧ toy_fit (Ok three_epochs) (a_model "Sequential" sgd) ∅
    = toy_fit (Ok three_epochs) (a_model "Sequential" sgd)
              (<["batch_size" := VInt 32]> ∅)
  ∧ ∃ full ops,
      oplog (toy_fit (Ok three_epochs) (a_model "Sequential" sgd) ∅).2
      = oplog empty_db ++ Insert full :: ops
      ∧ full !! "batch_size" = Some (VInt 32)
      ∧ full !! "mod_id" = Some (VStr "4f2a").
Proof.
  refine (proj1 (fit_batch_size (toy (Ok three_epochs))
            (λ m _, mod_id m) (λ _, "d0") (λ p m d, p +:+ m +:+ d)
            "/parameters_h5/" 10 20 "keras" (VStr "1.0.8")
            (a_model "Sequential" sgd) [a_batch] [a_batch] [] ∅ empty_db) _).
  left. reflexivity.
Defined.

Lemma fit_persists_metrics_witness :
  ∃ r r0 model_k res_dict,
    (toy_fit (Ok three_epochs) (a_model "Sequential" sgd) ∅).1 = Ok r
    ∧ train (toy (Ok three_epochs)) (model_arch (a_model "Sequential" sgd))
            [a_batch] [a_batch] [] (with_batch_size ∅) = Ok (r0, model_k)
    ∧ r_metrics r0 !! "acc" = Some (VNums [5; 6; 7]%Z)
    ∧ persisted (toy (Ok three_epochs)) "acc" (VNums [5; 6; 7]%Z)
                (res_dict ∪ toy_inserted (a_model "Sequential" sgd) ∅).
Proof.
  destruct (toy_fit (Ok three_epochs) (a_model "Sequential" sgd) ∅).1 as [r|]
    eqn:Hrun; [| by vm_compute in Hrun].
  destruct (proj2 (proj2 (proj2 (proj2 (fit_persists_metrics (toy (Ok three_epochs))
              (λ m _, mod_id m) (λ _, "d0") (λ p m d, p +:+ m +:+ d)
              "/parameters_h5/" 10 20 "keras" (VStr "1.0.8")
              (a_model "Sequential" sgd) [a_batch] [a_batch] [] ∅ empty_db))))
              r Hrun)
    as (r0 & model_k & res_dict & Htrain & _ & _ & Hmetrics).
  exists r, r0, model_k, res_dict.
  assert (r_metrics r0 !! "acc" = Some (VNums [5; 6; 7]%Z)) as Hacc.
  { vm_compute in Htrain. injection Htrain as <- _. by vm_compute. }
  split_and!; [done | done | done |]. by apply Hmetrics.
Defined.

(** C4 as worded fails under 'loss': the history [train] accumulated is
    [3, 1, 2], and the document holds its minimum. *)
Lemma fit_persists_minimum_of_loss :
  ∃ r db d,
    toy_fit (Ok three_epochs) (a_model "Sequential" sgd) ∅ = (Ok r, db)
    ∧ r_metrics r !! "loss" = Some (VNums [3; 1; 2]%Z)
    ∧ docs db = [d]
    ∧ d !! "loss" = Some (VNum 1%Z)
    ∧ d !! "acc" = Some (VNums [5; 6; 7]%Z).
Proof. eexists _, _, _. split_and!; by vm_compute. Qed.

Lemma unsupported_model_type_witness :
  (toy_predict (a_model "Dense" sgd) empty_state).1
  = Raise (NotImplementedError "Dense: This type of model is not supported").
Proof.
  refine (proj1 (unsupported_model_type (toy (Ok three_epochs))
            (a_model "Dense" sgd) (PArr [1; 2]%Z) [] ∅ empty_state) _ _).
  - cbn. unfold supported. rewrite !not_elem_of_cons.
    split_and!; try discriminate. apply not_elem_of_nil.
  - right. eexists. vm_compute. reflexivity.
Defined.

(** C2 as worded fails for a model serialized without optimizer: the
    [pop] raises before the class name is looked at. *)
Lemma predict_without_optimizer :
  toy_predict (a_model "Dense" None) empty_state
  = (Raise (KeyError "optimizer"), empty_state).
Proof. by vm_compute. Qed.



(** A second call with the same id takes no step and changes nothing. *)
Lemma predict_twice :
  let st := (toy_predict (a_model "Sequential" sgd) empty_state).2 in
  (toy_predict (a_model "Sequential" sgd) st).2 = st
  ∧ steps st = [Rebuild (model_arch (a_model "Sequential" None));
                LoadWeights "/parameters_h5/4f2a.h5"; BuildPredictFunc].
Proof. by vm_compute. Qed.

Lemma arrange_by_input_names_witness :
  arrange (toy (Ok three_epochs)) (Some "Model")
          {| toy_class := "Model"; toy_weights := None |} (PDict ∅)
  = Raise (KeyError "X").
Proof.
  refine (proj1 (arrange_by_input_names (toy (Ok three_epochs))
            {| toy_class := "Model"; toy_weights := None |} ∅ ["X"] _)
            [] "X" [] _ _ _); try done.
  intros g Hg. by apply elem_of_nil in Hg.
Defined.

Lemma predict_keyed_by_id_witness :
  let st1 := (toy_predict (a_model "Sequential" sgd) empty_state).2 in
  predict (toy (Ok three_epochs)) (a_model "Model" None) (PArr [7]%Z) [] ∅ st1
  = (data ← arrange (toy (Ok three_epochs)) (Some "Model")
              {| toy_class := "Sequential";
                 toy_weights := Some "/parameters_h5/4f2a.h5" |} (PArr [7]%Z);
     call (toy (Ok three_epochs))
          {| toy_class := "Sequential";
             toy_weights := Some "/parameters_h5/4f2a.h5" |} data, st1).
Proof.
  refine (predict_keyed_by_id (toy (Ok three_epochs))
            (a_model "Sequential" sgd) (a_model "Model" None)
            (PArr [1; 2]%Z) (PArr [7]%Z) [] [] ∅ ∅ empty_state
            _ _ _ _ _ _ _ _ _ _); reflexivity.
Defined.



Lemma toy_names_plain : plain_names ["loss"; "acc"].
Proof.
  split.
  - rewrite !not_elem_of_cons. split_and!; try done. apply not_elem_of_nil.
  - intros n n'. rewrite !elem_of_cons, !elem_of_nil.
    intros [->|[->|[]]] [->|[->|[]]]; done.
Qed.

Lemma train_validation_history_witness :
  ∃ r model_k,
    train (toy (Ok three_epochs)) (model_arch (a_model "Sequential" sgd))
          [a_batch] [a_batch] [] ∅ = Ok (r, model_k)
    ∧ r_metrics r !! ("val_" +:+ "loss") = r_metrics r !! "loss".
Proof.
  destruct (train (toy (Ok three_epochs)) (model_arch (a_model "Sequential" sgd))
              [a_batch] [a_batch] [] ∅) as [[r model_k]|] eqn:Htrain;
    [| by vm_compute in Htrain].
  exists r, model_k. split; [done |].
  refine (train_validation_history (toy (Ok three_epochs))
            (model_arch (a_model "Sequential" sgd)) [a_batch] [a_batch] [] ∅
            {| toy_class := "Sequential"; toy_weights := None |} model_k
            ["loss"; "acc"] r _ _ toy_names_plain Htrain "loss" _);
    [reflexivity | reflexivity | by left].
Defined.

Lemma fit_val_loss_is_loss_witness :
  ∃ r db' d,
    toy_fit (Ok three_epochs) (a_model "Sequential" sgd) ∅ = (Ok r, db')
    ∧ docs db' = docs empty_db ++ [d]
    ∧ d !! "val_loss" = d !! "loss".
Proof.
  destruct (toy_fit (Ok three_epochs) (a_model "Sequential" sgd) ∅)
    as [[r|] db'] eqn:Hrun; [| by vm_compute in Hrun].
  assert (model_from_dict_w_opt (toy (Ok three_epochs))
            (model_arch (a_model "Sequential" sgd))
            (kwargs_get (with_batch_size ∅) "custom_objects")
          = Ok {| toy_class := "Sequential"; toy_weights := None |}) as Hm
    by (by vm_compute).
  assert (metrics_names (toy (Ok three_epochs))
            {| toy_class := "Sequential"; toy_weights := None |}
          = Ok ["loss"; "acc"]) as Hn by done.
  assert ("loss" ∈ ["loss"; "acc"]) as Hloss by left.
  unfold toy_fit in Hrun.
  destruct (fit_val_loss_is_loss _ _ _ _ _ _ _ _ _ _ _ _ _ _ _ _ _ _ _
              Hm Hn toy_names_plain Hloss Hrun) as (d & Hd & Hval).
  exists r, db', d. split; [reflexivity |]. by split.
Defined.

Lemma fit_save_failure_witness :
  ∃ res_dict db,
    fit toy_disk_full (λ m _, mod_id m) (λ _, "d0") (λ p m d, p +:+ m +:+ d)
        "/parameters_h5/" 10 20 "keras" (VStr "1.0.8")
        (a_model "Sequential" sgd) [a_batch] [a_batch] [] ∅ empty_db
    = (Raise (Exception "No space left on device"), db)
    ∧ docs db = [<["error" := VInt 1]>
                   (res_dict ∪ toy_inserted (a_model "Sequential" sgd) ∅)]
    ∧ (<["error" := VInt 1]>
         (res_dict ∪ toy_inserted (a_model "Sequential" sgd) ∅)) !! "trained"
      = Some (VInt 1).
Proof.
  destruct (train toy_disk_full (model_arch (a_model "Sequential" sgd))
              [a_batch] [a_batch] [] (with_batch_size ∅)) as [[r0 model_k]|]
    eqn:Htrain; [| by vm_compute in Htrain].
  destruct (res_dict_of toy_disk_full 20 r0) as [res_dict|] eqn:Hres.
  2:{ vm_compute in Htrain. injection Htrain as <- _. by vm_compute in Hres. }
  destruct (fit_save_failure toy_disk_full (λ m _, mod_id m) (λ _, "d0")
              (λ p m d, p +:+ m +:+ d) "/parameters_h5/" 10 20 "keras"
              (VStr "1.0.8") (a_model "Sequential" sgd) [a_batch] [a_batch] [] ∅
              empty_db r0 model_k res_dict
              (Exception "No space left on device") Htrain Hres eq_refl eq_refl)
    as [Hfit Htrained].
  eexists res_dict, _. split; [exact Hfit |]. split; [done |].
  apply Htrained. vm_compute in Htrain. injection Htrain as <- _. by vm_compute.
Defined.

Lemma predict_not_compiled_witness :
  ∃ model_arch,
    to_dict_w_opt not_compiled None = Ok model_arch
    ∧ predict (toy (Ok three_epochs))
        {| mod_id := "9c1e"; model_arch := model_arch;
           params_dump := "/parameters_h5/9c1e.h5" |}
        (PArr [1; 2]%Z) [] ∅ empty_state
      = (Raise (KeyError "optimizer"), empty_state).
Proof.
  eexists. split; [reflexivity |].
  apply (predict_not_compiled (toy (Ok three_epochs)) not_compiled None);
    reflexivity.
Defined.

Lemma single_loss_first_output_witness :
  ∃ model_arch,
    to_dict_w_opt two_outputs None = Ok model_arch
    ∧ loss model_arch = Some {[ "dense_1" := "mean_squared_error" ]}.
Proof.
  eexists. split; [reflexivity |].
  apply (single_loss_first_output two_outputs None
           (Function "mean_squared_error") "mean_squared_error"
           "dense_1" ["dense_2"]); reflexivity.
Defined.

End keras_backend_props.
